(** * IPv4 subnetting calculator: a shallow embedding of
      [Subnetting/subnetting.py] and the properties of its arithmetic.

    Python integers are modelled as [Z] (they are unbounded), Python [str]
    values as [string] over the code points U+0000 .. U+00FF, and the
    exceptions a function can raise as an explicit [outcome]. *)

From Stdlib Require Import ZArith List String Ascii Bool Lia.
From Stdlib Require Import DecimalString DecimalZ DecimalPos DecimalFacts.
Import ListNotations.

Local Open Scope string_scope.
Local Open Scope Z_scope.

(** ** Exceptions and outcomes *)

(** The messages of the [ValueError]s of the program: one constructor for each
    [raise] of the source, with the interpolated values the model determines
    ([Cannot_create_subnets] records the requested count and the original mask;
    the message also prints the rejected new mask), and one for each builtin
    that raises by itself: [int] on a character that is no decimal digit or on
    too many digits, [math.log2] outside its domain. *)
Inductive message : Type :=
| CIDR_must_be_between_0_and_32
| Number_of_subnets_must_be_positive
| Cannot_create_subnets (desired_subnets base_mask : Z)
| Must_have_exactly_four_octets
| Octet_is_not_a_valid_number (part : string)
| Octet_is_outside_0_255_range (part : string)
| CIDR_must_be_in_0_32
| Invalid_literal_for_int
| Math_domain_error.

Inductive exception : Type :=
| ValueError (m : message)
| OverflowError.

(** [Unmodelled] marks the executions that leave the fragment of Python
    described here: a float result ([2 ** e] with [e < 0]) or a builtin applied
    to a string the program never builds. *)
Inductive outcome (A : Type) : Type :=
| Returned (a : A)
| Raised (e : exception)
| Unmodelled.

Arguments Returned {A} a.
Arguments Raised {A} e.
Arguments Unmodelled {A}.

Definition bind {A B : Type} (c : outcome A) (k : A -> outcome B) : outcome B :=
  match c with
  | Returned a => k a
  | Raised e => Raised e
  | Unmodelled => Unmodelled
  end.

Notation "x <- c ;; k" := (bind c (fun x => k))
  (at level 61, c at next level, right associativity).
Notation "' pat <- c ;; k" := (bind c (fun x => match x with pat => k end))
  (at level 61, pat pattern, c at next level, right associativity).

Fixpoint mapM {A B : Type} (f : A -> outcome B) (l : list A) : outcome (list B) :=
  match l with
  | [] => Returned []
  | a :: l' => b <- f a ;; bs <- mapM f l' ;; Returned (b :: bs)
  end.

(** The error kinds of the specification, as a classification of the
    messages: malformed text, value outside its domain, request too large. *)
Inductive error_kind : Type := FormatError | RangeError | CapacityError.

Definition kind_of (m : message) : error_kind :=
  match m with
  | CIDR_must_be_between_0_and_32 => RangeError
  | Number_of_subnets_must_be_positive => RangeError
  | Cannot_create_subnets _ _ => CapacityError
  | Must_have_exactly_four_octets => FormatError
  | Octet_is_not_a_valid_number _ => FormatError
  | Octet_is_outside_0_255_range _ => RangeError
  | CIDR_must_be_in_0_32 => RangeError
  | Invalid_literal_for_int => FormatError
  | Math_domain_error => RangeError
  end.

(** ** The Python builtins the program uses *)

Module Py.

(** [str.isspace] on one character of U+0000 .. U+00FF. *)
Definition is_space (c : ascii) : bool :=
  let n := N_of_ascii c in
  ((9 <=? n) && (n <=? 13) || (28 <=? n) && (n <=? 32)
   || (n =? 133) || (n =? 160))%N.

(** ASCII decimal digits, the characters [int] accepts. *)
Definition is_decimal (c : ascii) : bool :=
  let n := N_of_ascii c in ((48 <=? n) && (n <=? 57))%N.

(** [str.isdigit] on one character: the ASCII digits and the superscripts
    U+00B2, U+00B3, U+00B9, which [int] rejects. *)
Definition is_digit (c : ascii) : bool :=
  let n := N_of_ascii c in
  (is_decimal c || (n =? 178) || (n =? 179) || (n =? 185))%N.

Fixpoint all (p : ascii -> bool) (s : string) : bool :=
  match s with
  | EmptyString => true
  | String c s' => p c && all p s'
  end.

Definition nonempty (s : string) : bool :=
  match s with EmptyString => false | String _ _ => true end.

(** [s.isdigit()] *)
Definition isdigit (s : string) : bool := nonempty s && all is_digit s.

Fixpoint lstrip (s : string) : string :=
  match s with
  | EmptyString => EmptyString
  | String c s' => if is_space c then lstrip s' else s
  end.

Fixpoint rstrip (s : string) : string :=
  match s with
  | EmptyString => EmptyString
  | String c s' =>
      match rstrip s' with
      | EmptyString => if is_space c then EmptyString else String c EmptyString
      | r => String c r
      end
  end.

(** [s.strip()] *)
Definition strip (s : string) : string := rstrip (lstrip s).

(** [s.split(sep)] for a one-character separator. *)
Fixpoint split (sep : ascii) (s : string) : list string :=
  match s with
  | EmptyString => [EmptyString]
  | String c s' =>
      if Ascii.eqb c sep then EmptyString :: split sep s'
      else match split sep s' with
           | [] => [String c EmptyString]
           | h :: t => String c h :: t
           end
  end.

(** [sep.join(l)] *)
Definition join (sep : string) (l : list string) : string := String.concat sep l.

(** [s.replace(c, '')] for a one-character [c]. *)
Fixpoint remove (c : ascii) (s : string) : string :=
  match s with
  | EmptyString => EmptyString
  | String a s' => if Ascii.eqb a c then remove c s' else String a (remove c s')
  end.

(** [c * n]: the character repeated [n] times, empty for [n <= 0]. *)
Definition repeat (c : ascii) (n : Z) : string :=
  string_of_list_ascii (List.repeat c (Z.to_nat n)).

(** [s[i:i+8]] *)
Definition slice8 (s : string) (i : nat) : string := substring i 8 s.

(** The default of [sys.get_int_max_str_digits()] (CPython 3.11 and later):
    [int] refuses a decimal literal with more digits. *)
Definition int_max_str_digits : nat := 4300.

(** [str(z)] *)
Definition str (z : Z) : string := NilEmpty.string_of_int (Z.to_int z).

(** [int(s)] on the strings that pass [isdigit], the only ones the program
    converts. *)
Definition int (s : string) : outcome Z :=
  if isdigit s then
    if all is_decimal s && (String.length s <=? int_max_str_digits)%nat then
      match NilEmpty.uint_of_string s with
      | Some d => Returned (Z.of_uint d)
      | None => Raised (ValueError Invalid_literal_for_int)
      end
    else Raised (ValueError Invalid_literal_for_int)
  else Unmodelled.

Definition is_bit (c : ascii) : bool := Ascii.eqb c "0" || Ascii.eqb c "1".

Fixpoint bits_value (acc : Z) (s : string) : Z :=
  match s with
  | EmptyString => acc
  | String c s' => bits_value (2 * acc + (if Ascii.eqb c "1" then 1 else 0)) s'
  end.

(** [int(s, 2)] on the empty string and on strings of binary digits. *)
Definition int2 (s : string) : outcome Z :=
  match s with
  | EmptyString => Raised (ValueError Invalid_literal_for_int)
  | _ => if all is_bit s then Returned (bits_value 0 s) else Unmodelled
  end.

Fixpoint bin_pos (p : positive) : string :=
  match p with
  | xH => "1"
  | xO p' => bin_pos p' ++ "0"
  | xI p' => bin_pos p' ++ "1"
  end.

Definition zeros (n : nat) : string := string_of_list_ascii (List.repeat "0"%char n).

(** [format(z, '0wb')]: binary digits, zero-filled to [width] characters, the
    sign first. *)
Definition format_b (width : nat) (z : Z) : string :=
  match z with
  | Z0 => zeros (width - 1) ++ "0"
  | Zpos p => zeros (width - String.length (bin_pos p)) ++ bin_pos p
  | Zneg p => "-" ++ zeros (width - 1 - String.length (bin_pos p)) ++ bin_pos p
  end.

(** [2 ** e] on integers; a float for a negative exponent. *)
Definition pow2 (e : Z) : outcome Z :=
  if e <? 0 then Unmodelled else Returned (2 ^ e).

(** [math.ceil(math.log2(n))].  The source computes it in double precision;
    for [n <= 2 ^ 32] the double result is the exact integer given here, and
    above it both exceed 32, which is all the program makes of it. *)
Definition ceil_log2 (n : Z) : outcome Z :=
  if n <=? 0 then Raised (ValueError Math_domain_error)
  else Returned (Z.log2_up n).

(** [range(n)] *)
Definition range (n : Z) : list Z := List.map Z.of_nat (seq 0 (Z.to_nat n)).

End Py.

(** ** The functions of the program *)

(** [calculate_new_subnet_mask_for_subnets], returning
    [(new_mask, total_subnets, bits_to_borrow)]. *)
Definition calculate_new_subnet_mask_for_subnets (base_mask desired_subnets : Z)
  : outcome (Z * Z * Z) :=
  if negb ((0 <=? base_mask) && (base_mask <=? 32)) then
    Raised (ValueError CIDR_must_be_between_0_and_32)
  else if desired_subnets <=? 0 then
    Raised (ValueError Number_of_subnets_must_be_positive)
  else
    bits_to_borrow <- Py.ceil_log2 desired_subnets ;;
    let new_mask := base_mask + bits_to_borrow in
    if new_mask >? 32 then
      Raised (ValueError (Cannot_create_subnets desired_subnets base_mask))
    else
      total_subnets <- Py.pow2 bits_to_borrow ;;
      Returned (new_mask, total_subnets, bits_to_borrow).

(** The [for part in parts] loop of [get_ip_address], with its two
    accumulators. *)
Fixpoint octets_loop (parts : list string) (octets_decimal octets_binary : list string)
  : outcome (list string * list string) :=
  match parts with
  | [] => Returned (octets_decimal, octets_binary)
  | part :: rest =>
      if negb (Py.isdigit part) then
        Raised (ValueError (Octet_is_not_a_valid_number part))
      else
        octet_value <- Py.int part ;;
        if (octet_value <? 0) || (octet_value >? 255) then
          Raised (ValueError (Octet_is_outside_0_255_range part))
        else
          octets_loop rest
            (octets_decimal ++ [Py.str octet_value])
            (octets_binary ++ [Py.format_b 8 octet_value])
  end.

(** [get_ip_address], returning [(dotted_decimal_ip, binary_format_ip)]. *)
Definition get_ip_address (ip_string : string) : outcome (string * string) :=
  let parts := Py.split "." (Py.strip ip_string) in
  if negb (List.length parts =? 4)%nat then
    Raised (ValueError Must_have_exactly_four_octets)
  else
    '(octets_decimal, octets_binary) <- octets_loop parts [] [] ;;
    Returned (Py.join "." octets_decimal, Py.join "." octets_binary).

(** [[str(int(bit, 2)) for bit in octets_binary]] *)
Definition octets_to_decimal (octets_binary : list string) : outcome (list string) :=
  mapM (fun bit => v <- Py.int2 bit ;; Returned (Py.str v)) octets_binary.

(** [[s[i:i+8] for i in range(0, 32, 8)]] *)
Definition octets_of (s : string) : list string :=
  List.map (Py.slice8 s) [0; 8; 16; 24]%nat.

(** [cidr_to_subnet_mask], returning [(dotted_decimal_mask, binary_format_mask)]. *)
Definition cidr_to_subnet_mask (cidr_int : Z) : outcome (string * string) :=
  if negb ((0 <=? cidr_int) && (cidr_int <=? 32)) then
    Raised (ValueError CIDR_must_be_in_0_32)
  else
    let binary_mask := Py.repeat "1" cidr_int ++ Py.repeat "0" (32 - cidr_int) in
    let octets_binary := octets_of binary_mask in
    octets_decimal <- octets_to_decimal octets_binary ;;
    Returned (Py.join "." octets_decimal, Py.join "." octets_binary).

(** [get_network_address], returning
    [(network_dotted_format, network_binary_format)]. *)
Definition get_network_address (ip_binary mask_binary : string)
  : outcome (string * string) :=
  let ip_raw := Py.remove "." ip_binary in
  let mask_raw := Py.remove "." mask_binary in
  ip_int <- Py.int2 ip_raw ;;
  mask_int <- Py.int2 mask_raw ;;
  let network_int := Z.land ip_int mask_int in
  let network_binary := Py.format_b 32 network_int in
  let network_octets_binary := octets_of network_binary in
  network_octets_decimal <- octets_to_decimal network_octets_binary ;;
  Returned (Py.join "." network_octets_decimal, Py.join "." network_octets_binary).

(** [calculate_possible_hosts] *)
Definition calculate_possible_hosts (cidr_int : Z) : outcome Z :=
  if cidr_int =? 32 then Returned 1
  else if cidr_int =? 31 then Returned 2
  else p <- Py.pow2 (32 - cidr_int) ;; Returned (p - 2).

(** [int_to_dotted]; Python's [>>] and [&] on unbounded integers are
    [Z.shiftr] and [Z.land]. *)
Definition int_to_dotted (ip_int : Z) : string :=
  Py.join "."
    (List.map (fun i => Py.str (Z.land (Z.shiftr ip_int (8 * i)) 255)) [3; 2; 1; 0]).

(** The dictionary [sub_dict] that [get_subnet_ranges] builds for a subnet. *)
Record sub_dict : Type := {
  subnet_index : Z;
  network : string;
  broadcast : string;
  first_host : string;
  last_host : string
}.

(** The body of the loop of [get_subnet_ranges] at index [i]. *)
Definition subnet_entry (base_network_int new_mask subnet_size i : Z) : sub_dict :=
  let subnet_network_int := base_network_int + i * subnet_size in
  let subnet_broadcast_int := subnet_network_int + subnet_size - 1 in
  let subnet_network_dotted := int_to_dotted subnet_network_int in
  let subnet_broadcast_dotted := int_to_dotted subnet_broadcast_int in
  let '(first_host, last_host) :=
    if new_mask >=? 31 then ("N/A", "N/A")
    else (int_to_dotted (subnet_network_int + 1),
          int_to_dotted (subnet_broadcast_int - 1)) in
  {| subnet_index := i + 1;
     network := subnet_network_dotted;
     broadcast := subnet_broadcast_dotted;
     first_host := first_host;
     last_host := last_host |}.

(** [get_subnet_ranges]: the loop body raises nothing on integers, so the
    list it appends to is the image of [range(total_subnets)]. *)
Definition get_subnet_ranges (base_network_int new_mask total_subnets : Z)
  : outcome (list sub_dict) :=
  subnet_size <- Py.pow2 (32 - new_mask) ;;
  Returned (List.map (subnet_entry base_network_int new_mask subnet_size)
              (Py.range total_subnets)).

(** [get_broadcast_address], returning
    [(broadcast_binary_format, broadcast_dotted_format)]: the binary form
    first.  Python's [~] on unbounded integers is [Z.lnot]. *)
Definition get_broadcast_address (ip_binary mask_binary : string)
  : outcome (string * string) :=
  let ip_raw := Py.remove "." ip_binary in
  let mask_raw := Py.remove "." mask_binary in
  ip_int <- Py.int2 ip_raw ;;
  mask_int <- Py.int2 mask_raw ;;
  let inverted_mask := Z.land (Z.lnot mask_int) 4294967295 in
  let broadcast_int := Z.lor ip_int inverted_mask in
  let broadcast_binary := Py.format_b 32 broadcast_int in
  let broadcast_octets_binary := octets_of broadcast_binary in
  broadcast_octets_decimal <- octets_to_decimal broadcast_octets_binary ;;
  Returned (Py.join "." broadcast_octets_binary, Py.join "." broadcast_octets_decimal).

(** The values the main script computes before it prints them. *)
Record results : Type := {
  new_mask : Z;
  total_subnets : Z;
  bits_borrowed : Z;
  dotted_decimal_ip : string;
  binary_format_ip : string;
  orig_mask_dotted : string;
  orig_mask_binary : string;
  base_network_dotted : string;
  base_network_binary : string;
  base_network_int : Z;
  new_mask_dotted : string;
  new_mask_binary : string;
  hosts_per_subnet : Z;
  all_subnets : list sub_dict
}.

(** The main script, once the address text and the two integers have been
    read from the user.  A [ValueError] it catches ends the run; here it is
    the outcome. *)
Definition main (input_ipv4_address : string) (original_mask number_of_subnets : Z)
  : outcome results :=
  '(new_mask, total_subnets, bits_borrowed) <-
     calculate_new_subnet_mask_for_subnets original_mask number_of_subnets ;;
  '(dotted_decimal_ip, binary_format_ip) <- get_ip_address input_ipv4_address ;;
  '(orig_mask_dotted, orig_mask_binary) <- cidr_to_subnet_mask original_mask ;;
  '(base_network_dotted, base_network_binary) <-
     get_network_address binary_format_ip orig_mask_binary ;;
  base_network_int <- Py.int2 (Py.remove "." base_network_binary) ;;
  '(new_mask_dotted, new_mask_binary) <- cidr_to_subnet_mask new_mask ;;
  hosts_per_subnet <- calculate_possible_hosts new_mask ;;
  all_subnets <- get_subnet_ranges base_network_int new_mask total_subnets ;;
  Returned {| new_mask := new_mask;
              total_subnets := total_subnets;
              bits_borrowed := bits_borrowed;
              dotted_decimal_ip := dotted_decimal_ip;
              binary_format_ip := binary_format_ip;
              orig_mask_dotted := orig_mask_dotted;
              orig_mask_binary := orig_mask_binary;
              base_network_dotted := base_network_dotted;
              base_network_binary := base_network_binary;
              base_network_int := base_network_int;
              new_mask_dotted := new_mask_dotted;
              new_mask_binary := new_mask_binary;
              hosts_per_subnet := hosts_per_subnet;
              all_subnets := all_subnets |}.

(** The integer of an address text, as the program obtains it: the binary
    form of [get_ip_address] read back in base 2 with its dots removed
    ([get_network_address], first lines). *)
Definition ip_int_of (ip_string : string) : outcome Z :=
  '(_, binary_format_ip) <- get_ip_address ip_string ;;
  Py.int2 (Py.remove "." binary_format_ip).

(** The integer of the mask of a prefix, obtained the same way from
    [cidr_to_subnet_mask]. *)
Definition mask_int_of (cidr_int : Z) : outcome Z :=
  '(_, binary_format_mask) <- cidr_to_subnet_mask cidr_int ;;
  Py.int2 (Py.remove "." binary_format_mask).

(** ** Vocabulary of the properties *)

(** A decimal literal [int] converts: ASCII digits only, at least one, no
    more than [int_max_str_digits]. *)
Definition decimal_literal (part : string) : bool :=
  Py.nonempty part && Py.all Py.is_decimal part
  && (String.length part <=? Py.int_max_str_digits)%nat.

(** The number a decimal literal denotes. *)
Definition octet_value (part : string) : Z :=
  match NilEmpty.uint_of_string part with
  | Some d => Z.of_uint d
  | None => 0
  end.

(** A decimal literal of an octet: its value is at most 255. *)
Definition valid_octet (part : string) : bool :=
  decimal_literal part && (octet_value part <=? 255).

(** A valid dotted-decimal text: four decimal octets in [0, 255] separated
    by dots. *)
Definition valid_dotted (s : string) : bool :=
  let parts := Py.split "." s in
  (List.length parts =? 4)%nat && forallb valid_octet parts.

(** Any character but the separator of the octets. *)
Definition not_dot (c : ascii) : bool := negb (Ascii.eqb c ".").

(** The octets packed most significant first. *)
Definition pack (octets : list Z) : Z :=
  fold_left (fun acc o => 256 * acc + o) octets 0.

Fixpoint lstrip_zeros (s : string) : string :=
  match s with
  | EmptyString => EmptyString
  | String c s' => if Ascii.eqb c "0" then lstrip_zeros s' else s
  end.

(** An octet without its leading zeros; a lone zero stays. *)
Definition strip_zeros (part : string) : string :=
  match lstrip_zeros part with
  | EmptyString => if Py.nonempty part then "0" else EmptyString
  | r => r
  end.

(** The normal form of an address text, in the words of the specification:
    each octet loses its leading zeros. *)
Definition normalize (s : string) : string :=
  Py.join "." (List.map strip_zeros (Py.split "." s)).

(** The binary form of a number as [get_network_address] and
    [get_broadcast_address] build it: [format(x, '032b')] cut in four octets
    joined by dots. *)
Definition binary_form (x : Z) : string :=
  Py.join "." (octets_of (Py.format_b 32 x)).

(** The mask of a prefix as a number: the top [p] of 32 bits. *)
Definition mask_of (p : Z) : Z := 2 ^ 32 - 2 ^ (32 - p).

(** An enumeration that stays inside the 32-bit address space. *)
Definition in_address_space (base_network_int new_mask total_subnets : Z) : Prop :=
  0 <= base_network_int /\
  base_network_int + total_subnets * 2 ^ (32 - new_mask) <= 2 ^ 32.

(** The overflow clause of the range enumeration, as the specification words
    it: an enumeration running past [2 ^ 32 - 1] is reported. *)
Definition overflow_is_reported : Prop :=
  forall base_network_int new_mask total_subnets : Z,
    base_network_int + total_subnets * 2 ^ (32 - new_mask) - 1 > 2 ^ 32 - 1 ->
    get_subnet_ranges base_network_int new_mask total_subnets = Raised OverflowError.



(** * Properties *)

(** Turns a hypothesis on the outcome of [x >? y] into the order it decides. *)
Ltac gtb_prop E :=
  rewrite Z.gtb_ltb in E; first [apply Z.ltb_lt in E | apply Z.ltb_ge in E].

(** ** Strings *)

Lemma string_length_app (a b : string) :
  String.length (a ++ b) = (String.length a + String.length b)%nat.
Proof. induction a as [|c a IH]; simpl; [reflexivity|now rewrite IH]. Qed.

Lemma string_app_empty_r (a : string) : a ++ "" = a.
Proof. induction a as [|c a IH]; simpl; [reflexivity|now rewrite IH]. Qed.

Lemma string_app_assoc (a b c : string) : (a ++ b) ++ c = a ++ b ++ c.
Proof. induction a as [|x a IH]; simpl; [reflexivity|now rewrite IH]. Qed.

Lemma all_app (p : ascii -> bool) (a b : string) :
  Py.all p (a ++ b) = Py.all p a && Py.all p b.
Proof.
  induction a as [|c a IH]; simpl; [reflexivity|].
  now rewrite IH, andb_assoc.
Qed.

Lemma all_impl (p q : ascii -> bool) (s : string) :
  (forall c, p c = true -> q c = true) -> Py.all p s = true -> Py.all q s = true.
Proof.
  intros Hpq. induction s as [|c s IH]; simpl; [reflexivity|].
  intros [Hc Hs]%andb_prop. now rewrite (Hpq _ Hc), IH.
Qed.

Lemma decimal_not_dot c : Py.is_decimal c = true -> not_dot c = true.
Proof.
  unfold Py.is_decimal, not_dot. intros H.
  destruct (Ascii.eqb_spec c "."); [subst; discriminate H|reflexivity].
Qed.

Lemma decimal_not_space c : Py.is_decimal c = true -> Py.is_space c = false.
Proof.
  unfold Py.is_decimal, Py.is_space. cbv zeta.
  generalize (N_of_ascii c); intros n [H1 H2]%andb_prop.
  apply N.leb_le in H1, H2.
  repeat (apply orb_false_intro); try apply andb_false_iff;
    rewrite ?N.leb_gt, ?N.eqb_neq; lia.
Qed.

Lemma decimal_is_digit c : Py.is_decimal c = true -> Py.is_digit c = true.
Proof. unfold Py.is_digit. now intros ->. Qed.

Lemma bit_not_dot c : Py.is_bit c = true -> not_dot c = true.
Proof.
  unfold Py.is_bit, not_dot. intros H.
  destruct (Ascii.eqb_spec c "."); [subst; discriminate H|reflexivity].
Qed.

Lemma split_not_nil sep s : Py.split sep s <> [].
Proof.
  induction s as [|c s IH]; simpl; [discriminate|].
  destruct (Ascii.eqb c sep); [discriminate|].
  destruct (Py.split sep s); discriminate.
Qed.

Lemma split_no_dot (a : string) :
  Py.all not_dot a = true -> Py.split "." a = [a].
Proof.
  induction a as [|c a IH]; simpl; [reflexivity|].
  intros [Hc Ha]%andb_prop. unfold not_dot in Hc.
  destruct (Ascii.eqb c "."); [discriminate|]. now rewrite IH.
Qed.

Lemma split_app_dot (a r : string) :
  Py.all not_dot a = true -> Py.split "." (a ++ "." ++ r) = a :: Py.split "." r.
Proof.
  induction a as [|c a IH]; simpl; [reflexivity|].
  intros [Hc Ha]%andb_prop. unfold not_dot in Hc.
  destruct (Ascii.eqb c "."); [discriminate|].
  simpl in IH. now rewrite IH.
Qed.

Lemma join_split (s : string) : Py.join "." (Py.split "." s) = s.
Proof.
  unfold Py.join. induction s as [|c s IH]; simpl; [reflexivity|].
  destruct (Ascii.eqb_spec c ".") as [->|Hc].
  - destruct (Py.split "." s) eqn:E; [now destruct (split_not_nil "." s)|].
    simpl. f_equal. exact IH.
  - destruct (Py.split "." s) as [|h t] eqn:E; [now destruct (split_not_nil "." s)|].
    destruct t; simpl in *; now rewrite <- IH.
Qed.

Lemma split_parts_no_dot (s part : string) :
  In part (Py.split "." s) -> Py.all not_dot part = true.
Proof.
  revert part. induction s as [|c s IH]; simpl; intros part.
  - intros [<-|[]]. reflexivity.
  - destruct (Ascii.eqb c ".") eqn:Ec.
    + intros [<-|H]; [reflexivity|now apply IH].
    + destruct (Py.split "." s) as [|h t].
      * intros [<-|[]]. simpl. unfold not_dot. now rewrite Ec.
      * intros [<-|H].
        -- simpl. unfold not_dot at 1. rewrite Ec. apply IH. now left.
        -- apply IH. now right.
Qed.

Lemma remove_app c (a b : string) :
  Py.remove c (a ++ b) = Py.remove c a ++ Py.remove c b.
Proof.
  induction a as [|x a IH]; simpl; [reflexivity|].
  destruct (Ascii.eqb x c); simpl; now rewrite IH.
Qed.

Lemma remove_no_dot (a : string) :
  Py.all not_dot a = true -> Py.remove "." a = a.
Proof.
  induction a as [|c a IH]; simpl; [reflexivity|].
  intros [Hc Ha]%andb_prop. unfold not_dot in Hc.
  destruct (Ascii.eqb c "."); [discriminate|]. now rewrite IH.
Qed.

Lemma remove_join4 (a b c d : string) :
  Py.all not_dot a = true -> Py.all not_dot b = true ->
  Py.all not_dot c = true -> Py.all not_dot d = true ->
  Py.remove "." (Py.join "." [a; b; c; d]) = a ++ b ++ c ++ d.
Proof.
  intros Ha Hb Hc Hd. unfold Py.join. cbn [String.concat].
  rewrite !remove_app.
  rewrite (remove_no_dot a Ha), (remove_no_dot b Hb),
    (remove_no_dot c Hc), (remove_no_dot d Hd).
  reflexivity.
Qed.

Lemma lstrip_id (s : string) :
  Py.all Py.is_decimal s = true -> Py.lstrip s = s.
Proof.
  destruct s as [|c s]; simpl; [reflexivity|].
  intros [Hc _]%andb_prop. now rewrite (decimal_not_space _ Hc).
Qed.

Lemma rstrip_decimal (s : string) :
  Py.all Py.is_decimal s = true -> Py.rstrip s = s.
Proof.
  induction s as [|c s IH]; simpl; [reflexivity|].
  intros [Hc Hs]%andb_prop. rewrite (IH Hs).
  destruct s; [now rewrite (decimal_not_space _ Hc)|reflexivity].
Qed.

Lemma rstrip_app (a b : string) :
  Py.rstrip b <> "" -> Py.rstrip (a ++ b) = a ++ Py.rstrip b.
Proof.
  intros Hb. induction a as [|c a IH]; simpl; [reflexivity|].
  rewrite IH. destruct (a ++ Py.rstrip b) eqn:E; [|reflexivity].
  destruct a; simpl in E; [contradiction|discriminate].
Qed.

(** ** Decimal text: [str] and [int] *)

Lemma string_of_uint_decimal (d : Decimal.uint) :
  Py.all Py.is_decimal (NilEmpty.string_of_uint d) = true.
Proof. induction d; simpl; auto. Qed.

Lemma string_of_uint_nonempty (d : Decimal.uint) :
  d <> Decimal.Nil -> Py.nonempty (NilEmpty.string_of_uint d) = true.
Proof. destruct d; simpl; congruence. Qed.

Lemma decimal_char_cases (c : ascii) :
  Py.is_decimal c = true ->
  forall o, exists o', uint_of_char c (Some o) = Some o'.
Proof.
  intros H o.
  destruct c as [[] [] [] [] [] [] [] []]; try discriminate H;
    simpl; eexists; reflexivity.
Qed.

Lemma uint_of_decimal_string (s : string) :
  Py.all Py.is_decimal s = true -> exists d, NilEmpty.uint_of_string s = Some d.
Proof.
  induction s as [|c s IH]; simpl.
  - now exists Decimal.Nil.
  - intros [Hc Hs]%andb_prop. destruct (IH Hs) as [d ->].
    apply decimal_char_cases, Hc.
Qed.

Lemma uint_of_string_nil (s : string) :
  NilEmpty.uint_of_string s = Some Decimal.Nil -> s = "".
Proof. intros H. apply NilEmpty.sus in H. now subst. Qed.

Lemma to_int_nonneg (v : Z) :
  0 <= v -> exists d, Z.to_int v = Decimal.Pos d /\ d <> Decimal.Nil /\ Z.of_uint d = v.
Proof.
  intros Hv. pose proof (DecimalZ.of_to v) as Hof.
  destruct v as [|p|p]; [| |lia]; simpl in *.
  - exists (Decimal.D0 Decimal.Nil). repeat split; congruence.
  - exists (Pos.to_uint p). repeat split; [apply Unsigned.to_uint_nonnil|exact Hof].
Qed.

Lemma str_decimal (v : Z) : 0 <= v -> Py.all Py.is_decimal (Py.str v) = true.
Proof.
  intros Hv. unfold Py.str. destruct (to_int_nonneg v Hv) as (d & -> & _ & _).
  apply string_of_uint_decimal.
Qed.

Lemma str_nonempty (v : Z) : 0 <= v -> Py.nonempty (Py.str v) = true.
Proof.
  intros Hv. unfold Py.str. destruct (to_int_nonneg v Hv) as (d & -> & Hd & _).
  now apply string_of_uint_nonempty.
Qed.

Lemma octet_value_str (v : Z) : 0 <= v -> octet_value (Py.str v) = v.
Proof.
  intros Hv. unfold octet_value, Py.str.
  destruct (to_int_nonneg v Hv) as (d & -> & _ & Hd).
  simpl. now rewrite NilEmpty.usu.
Qed.

(** A property checked on the 256 octets holds of each of them. *)
Lemma octet_cases (P : Z -> bool) :
  forallb P (Py.range 256) = true -> forall v, 0 <= v <= 255 -> P v = true.
Proof.
  intros H v Hv. rewrite forallb_forall in H. apply H.
  unfold Py.range. apply in_map_iff. exists (Z.to_nat v). split; [lia|].
  apply in_seq. lia.
Qed.

Lemma str_octet_length (v : Z) :
  0 <= v <= 255 -> (String.length (Py.str v) <= 3)%nat.
Proof.
  intros Hv. apply Nat.leb_le.
  revert v Hv. apply octet_cases. vm_compute. reflexivity.
Qed.

Lemma str_octet_literal (v : Z) :
  0 <= v <= 255 -> decimal_literal (Py.str v) = true.
Proof.
  intros Hv. unfold decimal_literal.
  rewrite str_nonempty, str_decimal by lia. simpl.
  apply Nat.leb_le. pose proof (str_octet_length v Hv).
  unfold Py.int_max_str_digits. lia.
Qed.

Lemma str_octet_valid (v : Z) : 0 <= v <= 255 -> valid_octet (Py.str v) = true.
Proof.
  intros Hv. unfold valid_octet.
  rewrite str_octet_literal, octet_value_str by lia.
  apply Z.leb_le. lia.
Qed.

Lemma int_literal (part : string) :
  decimal_literal part = true ->
  Py.isdigit part = true /\ Py.int part = Returned (octet_value part) /\
  0 <= octet_value part.
Proof.
  unfold decimal_literal. intros [[Hne Hdec]%andb_prop Hlen]%andb_prop.
  assert (Hdig : Py.isdigit part = true).
  { unfold Py.isdigit. rewrite Hne. simpl.
    exact (all_impl _ _ _ decimal_is_digit Hdec). }
  destruct (uint_of_decimal_string part Hdec) as [d Hd].
  unfold Py.int, octet_value. rewrite Hdig, Hdec, Hlen, Hd. simpl.
  repeat split. unfold Z.of_uint. lia.
Qed.

Lemma int_not_literal (part : string) :
  Py.isdigit part = true -> decimal_literal part = false ->
  Py.int part = Raised (ValueError Invalid_literal_for_int).
Proof.
  unfold decimal_literal, Py.int. intros Hdig Hnot. rewrite Hdig.
  assert (Hne : Py.nonempty part = true).
  { unfold Py.isdigit in Hdig. now apply andb_prop in Hdig. }
  rewrite Hne in Hnot. simpl in Hnot. rewrite Hnot. reflexivity.
Qed.

Lemma not_digit_not_literal (part : string) :
  Py.isdigit part = false -> decimal_literal part = false.
Proof.
  intros H. destruct (decimal_literal part) eqn:E; [|reflexivity].
  apply int_literal in E. destruct E as [E _]. congruence.
Qed.

Lemma nzhead_string (d : Decimal.uint) :
  NilEmpty.string_of_uint (Decimal.nzhead d) = lstrip_zeros (NilEmpty.string_of_uint d).
Proof. induction d; simpl; auto. Qed.

Lemma unorm_string (d : Decimal.uint) :
  d <> Decimal.Nil ->
  NilEmpty.string_of_uint (Decimal.unorm d) = strip_zeros (NilEmpty.string_of_uint d).
Proof.
  intros Hd. unfold strip_zeros, Decimal.unorm.
  rewrite <- nzhead_string, (string_of_uint_nonempty d Hd).
  destruct (Decimal.nzhead d); reflexivity.
Qed.

Lemma str_octet_value (part : string) :
  decimal_literal part = true -> Py.str (octet_value part) = strip_zeros part.
Proof.
  unfold decimal_literal. intros [[Hne Hdec]%andb_prop _]%andb_prop.
  destruct (uint_of_decimal_string part Hdec) as [d Hd].
  unfold octet_value, Py.str. rewrite Hd.
  change (Z.of_uint d) with (Z.of_int (Decimal.Pos d)).
  rewrite DecimalZ.to_of. simpl.
  assert (d <> Decimal.Nil).
  { intros ->. apply uint_of_string_nil in Hd. subst. discriminate Hne. }
  rewrite unorm_string by assumption.
  now rewrite (NilEmpty.sus _ _ Hd).
Qed.

(** ** Binary text: [int(s, 2)] and [format(z, '0wb')] *)

Lemma bits_value_app (acc : Z) (a b : string) :
  Py.bits_value acc (a ++ b) = Py.bits_value (Py.bits_value acc a) b.
Proof. revert acc. induction a as [|c a IH]; simpl; intros acc; [reflexivity|apply IH]. Qed.

Lemma bits_value_acc (acc : Z) (s : string) :
  Py.bits_value acc s = acc * 2 ^ Z.of_nat (String.length s) + Py.bits_value 0 s.
Proof.
  revert acc. induction s as [|c s IH]; intros acc.
  - simpl. lia.
  - cbn [Py.bits_value String.length]. rewrite IH, (IH (2 * 0 + _)).
    rewrite Nat2Z.inj_succ, Z.pow_succ_r by lia. ring.
Qed.

Lemma bits_value_range (s : string) :
  0 <= Py.bits_value 0 s < 2 ^ Z.of_nat (String.length s).
Proof.
  induction s as [|c s IH].
  - simpl. lia.
  - cbn [Py.bits_value String.length]. rewrite bits_value_acc.
    rewrite Nat2Z.inj_succ, Z.pow_succ_r by lia.
    destruct (Ascii.eqb c "1"); lia.
Qed.

Lemma zeros_length (n : nat) : String.length (Py.zeros n) = n.
Proof. unfold Py.zeros. induction n; simpl; [reflexivity|now f_equal]. Qed.

Lemma zeros_bits (n : nat) : Py.all Py.is_bit (Py.zeros n) = true.
Proof. unfold Py.zeros. induction n; simpl; [reflexivity|exact IHn]. Qed.

Lemma zeros_value (n : nat) : Py.bits_value 0 (Py.zeros n) = 0.
Proof. unfold Py.zeros. induction n; simpl; [reflexivity|exact IHn]. Qed.

Lemma bin_pos_bits (p : positive) : Py.all Py.is_bit (Py.bin_pos p) = true.
Proof. induction p; simpl; rewrite ?all_app, ?IHp; reflexivity. Qed.

Lemma bin_pos_value (p : positive) : Py.bits_value 0 (Py.bin_pos p) = Z.pos p.
Proof.
  induction p; simpl; rewrite ?bits_value_app, ?IHp; simpl; reflexivity.
Qed.

Lemma bin_pos_length (p : positive) (w : nat) :
  Z.pos p < 2 ^ Z.of_nat w -> (String.length (Py.bin_pos p) <= w)%nat.
Proof.
  revert w. induction p as [p IH|p IH|]; intros w Hw.
  - destruct w as [|w]; [simpl in Hw; lia|].
    rewrite Nat2Z.inj_succ, Z.pow_succ_r in Hw by lia.
    simpl. rewrite string_length_app. simpl.
    assert (String.length (Py.bin_pos p) <= w)%nat by (apply IH; lia). lia.
  - destruct w as [|w]; [simpl in Hw; lia|].
    rewrite Nat2Z.inj_succ, Z.pow_succ_r in Hw by lia.
    simpl. rewrite string_length_app. simpl.
    assert (String.length (Py.bin_pos p) <= w)%nat by (apply IH; lia). lia.
  - destruct w as [|w]; [simpl in Hw; lia|]. simpl. lia.
Qed.

Lemma format_b_spec (w : nat) (v : Z) :
  (0 < w)%nat -> 0 <= v < 2 ^ Z.of_nat w ->
  String.length (Py.format_b w v) = w /\
  Py.all Py.is_bit (Py.format_b w v) = true /\
  Py.bits_value 0 (Py.format_b w v) = v.
Proof.
  intros Hw Hv. destruct v as [|p|p]; [| |lia]; unfold Py.format_b.
  - rewrite string_length_app, all_app, bits_value_app, zeros_length, zeros_bits, zeros_value.
    simpl. repeat split. lia.
  - pose proof (bin_pos_length p w (proj2 Hv)).
    rewrite string_length_app, all_app, bits_value_app, zeros_length, zeros_bits,
      zeros_value, bin_pos_bits.
    rewrite bits_value_acc, bin_pos_value. repeat split; lia.
Qed.

Lemma int2_bits (s : string) :
  Py.nonempty s = true -> Py.all Py.is_bit s = true ->
  Py.int2 s = Returned (Py.bits_value 0 s).
Proof. destruct s; [discriminate|]. unfold Py.int2. now intros _ ->. Qed.

Lemma nonempty_length (s : string) :
  (0 < String.length s)%nat -> Py.nonempty s = true.
Proof. destruct s; simpl; [lia|reflexivity]. Qed.

(** ** Octets of a 32-bit number *)

Lemma octet_at (x i : Z) :
  0 <= i -> Z.land (Z.shiftr x (8 * i)) 255 = (x / 2 ^ (8 * i)) mod 256.
Proof.
  intros Hi. rewrite Z.shiftr_div_pow2 by lia.
  change 255 with (Z.ones 8). now rewrite Z.land_ones by lia.
Qed.

Lemma int_to_dotted_octets (x : Z) :
  int_to_dotted x =
  Py.join "." [Py.str ((x / 2 ^ 24) mod 256); Py.str ((x / 2 ^ 16) mod 256);
               Py.str ((x / 2 ^ 8) mod 256); Py.str (x mod 256)].
Proof.
  unfold int_to_dotted. cbn [List.map].
  rewrite !octet_at by lia.
  change (8 * 3) with 24. change (8 * 2) with 16. change (8 * 1) with 8.
  change (8 * 0) with 0. now rewrite Z.pow_0_r, Z.div_1_r.
Qed.

Lemma pack4 (a b c d : Z) :
  pack [a; b; c; d] = ((a * 256 + b) * 256 + c) * 256 + d.
Proof. unfold pack. cbn [fold_left]. ring. Qed.

Lemma pack4_range (a b c d : Z) :
  0 <= a <= 255 -> 0 <= b <= 255 -> 0 <= c <= 255 -> 0 <= d <= 255 ->
  0 <= pack [a; b; c; d] < 2 ^ 32.
Proof. intros. rewrite pack4. change (2 ^ 32) with 4294967296. lia. Qed.

Lemma pack4_octets (a b c d : Z) :
  0 <= a <= 255 -> 0 <= b <= 255 -> 0 <= c <= 255 -> 0 <= d <= 255 ->
  let x := pack [a; b; c; d] in
  (x / 2 ^ 24) mod 256 = a /\ (x / 2 ^ 16) mod 256 = b /\
  (x / 2 ^ 8) mod 256 = c /\ x mod 256 = d.
Proof.
  intros Ha Hb Hc Hd x. subst x. rewrite pack4.
  change (2 ^ 24) with 16777216. change (2 ^ 16) with 65536.
  change (2 ^ 8) with 256.
  repeat split; Z.div_mod_to_equations; lia.
Qed.

Lemma unpack4 (x : Z) :
  0 <= x < 2 ^ 32 ->
  x = pack [(x / 2 ^ 24) mod 256; (x / 2 ^ 16) mod 256; (x / 2 ^ 8) mod 256; x mod 256].
Proof.
  intros Hx. rewrite pack4. change (2 ^ 32) with 4294967296 in Hx.
  change (2 ^ 24) with 16777216. change (2 ^ 16) with 65536.
  change (2 ^ 8) with 256.
  Z.div_mod_to_equations; lia.
Qed.

Lemma octets_mod (x : Z) :
  ((x mod 2 ^ 32) / 2 ^ 24) mod 256 = (x / 2 ^ 24) mod 256 /\
  ((x mod 2 ^ 32) / 2 ^ 16) mod 256 = (x / 2 ^ 16) mod 256 /\
  ((x mod 2 ^ 32) / 2 ^ 8) mod 256 = (x / 2 ^ 8) mod 256 /\
  (x mod 2 ^ 32) mod 256 = x mod 256.
Proof.
  change (2 ^ 32) with 4294967296.
  change (2 ^ 24) with 16777216. change (2 ^ 16) with 65536.
  change (2 ^ 8) with 256.
  repeat split; Z.div_mod_to_equations; lia.
Qed.

Lemma int_to_dotted_mod (x : Z) : int_to_dotted (x mod 2 ^ 32) = int_to_dotted x.
Proof.
  rewrite !int_to_dotted_octets.
  destruct (octets_mod x) as (-> & -> & -> & ->). reflexivity.
Qed.

Lemma int_to_dotted_pack (a b c d : Z) :
  0 <= a <= 255 -> 0 <= b <= 255 -> 0 <= c <= 255 -> 0 <= d <= 255 ->
  int_to_dotted (pack [a; b; c; d]) = Py.join "." [Py.str a; Py.str b; Py.str c; Py.str d].
Proof.
  intros Ha Hb Hc Hd. rewrite int_to_dotted_octets.
  destruct (pack4_octets a b c d Ha Hb Hc Hd) as (-> & -> & -> & ->). reflexivity.
Qed.

(** ** The four octets of a 32-character binary text *)

Lemma octets_of_32 (t : string) :
  String.length t = 32%nat ->
  exists c1 c2 c3 c4 : string,
    octets_of t = [c1; c2; c3; c4] /\ t = c1 ++ c2 ++ c3 ++ c4 /\
    String.length c1 = 8%nat /\ String.length c2 = 8%nat /\
    String.length c3 = 8%nat /\ String.length c4 = 8%nat.
Proof.
  intros H.
  do 32 (destruct t as [|? t]; [discriminate H|]).
  destruct t; [|discriminate H].
  do 4 eexists. split; [unfold octets_of, Py.slice8; simpl; reflexivity|].
  repeat split.
Qed.

Lemma octet_of_bits (c : string) :
  String.length c = 8%nat -> Py.all Py.is_bit c = true ->
  Py.int2 c = Returned (Py.bits_value 0 c) /\ 0 <= Py.bits_value 0 c <= 255.
Proof.
  intros Hl Hb. split.
  - apply int2_bits; [apply nonempty_length; lia|exact Hb].
  - pose proof (bits_value_range c) as H. rewrite Hl in H.
    change (2 ^ Z.of_nat 8) with 256 in H. lia.
Qed.

Lemma bits32 (t : string) :
  String.length t = 32%nat -> Py.all Py.is_bit t = true ->
  octets_to_decimal (octets_of t) =
    Returned (List.map (fun i => Py.str (Z.land (Z.shiftr (Py.bits_value 0 t) (8 * i)) 255))
                [3; 2; 1; 0]) /\
  Py.int2 (Py.remove "." (Py.join "." (octets_of t))) = Returned (Py.bits_value 0 t) /\
  0 <= Py.bits_value 0 t < 2 ^ 32.
Proof.
  intros Hl Hb.
  destruct (octets_of_32 t Hl) as (c1 & c2 & c3 & c4 & -> & Ht & L1 & L2 & L3 & L4).
  pose proof Hb as Hb'. rewrite Ht, !all_app in Hb'.
  apply andb_prop in Hb'. destruct Hb' as [B1 Hb'].
  apply andb_prop in Hb'. destruct Hb' as [B2 Hb'].
  apply andb_prop in Hb'. destruct Hb' as [B3 B4].
  destruct (octet_of_bits c1 L1 B1) as [I1 R1].
  destruct (octet_of_bits c2 L2 B2) as [I2 R2].
  destruct (octet_of_bits c3 L3 B3) as [I3 R3].
  destruct (octet_of_bits c4 L4 B4) as [I4 R4].
  assert (Hv : Py.bits_value 0 t =
               pack [Py.bits_value 0 c1; Py.bits_value 0 c2;
                     Py.bits_value 0 c3; Py.bits_value 0 c4]).
  { rewrite pack4, Ht, !bits_value_app.
    rewrite (bits_value_acc _ c4), (bits_value_acc _ c3), (bits_value_acc _ c2).
    rewrite L2, L3, L4. change (2 ^ Z.of_nat 8) with 256. reflexivity. }
  split; [|split].
  - unfold octets_to_decimal. cbn [mapM]. rewrite I1, I2, I3, I4. cbn [bind].
    rewrite Hv. cbn [List.map]. rewrite !octet_at by lia.
    change (8 * 3) with 24. change (8 * 2) with 16. change (8 * 1) with 8.
    change (8 * 0) with 0. rewrite Z.pow_0_r, Z.div_1_r.
    destruct (pack4_octets _ _ _ _ R1 R2 R3 R4) as (-> & -> & -> & ->).
    reflexivity.
  - rewrite remove_join4 by (apply (all_impl _ _ _ bit_not_dot); assumption).
    rewrite <- Ht. apply int2_bits; [apply nonempty_length; lia|exact Hb].
  - rewrite Hv. now apply pack4_range.
Qed.

(** ** [get_ip_address] *)

Lemma valid_octet_range (part : string) :
  valid_octet part = true ->
  decimal_literal part = true /\ 0 <= octet_value part <= 255.
Proof.
  unfold valid_octet. intros [Hl Hv]%andb_prop. apply Z.leb_le in Hv.
  destruct (int_literal part Hl) as (_ & _ & H0). auto.
Qed.

Lemma octets_loop_step (part : string) (rest dd bb : list string) :
  valid_octet part = true ->
  octets_loop (part :: rest) dd bb =
  octets_loop rest (dd ++ [Py.str (octet_value part)])
    (bb ++ [Py.format_b 8 (octet_value part)]).
Proof.
  intros Hv. destruct (valid_octet_range part Hv) as [Hl Hr].
  destruct (int_literal part Hl) as (Hd & Hi & _).
  cbn [octets_loop]. rewrite Hd, Hi. cbn [negb bind].
  destruct (octet_value part <? 0) eqn:E1; [apply Z.ltb_lt in E1; lia|].
  destruct (octet_value part >? 255) eqn:E2; [gtb_prop E2; lia|].
  reflexivity.
Qed.

Lemma octets_loop_skip (good rest dd bb : list string) :
  forallb valid_octet good = true ->
  octets_loop (good ++ rest) dd bb =
  octets_loop rest
    (dd ++ List.map (fun p => Py.str (octet_value p)) good)
    (bb ++ List.map (fun p => Py.format_b 8 (octet_value p)) good).
Proof.
  revert dd bb. induction good as [|part good IH]; intros dd bb Hg.
  - simpl. now rewrite !List.app_nil_r.
  - simpl in Hg. apply andb_prop in Hg. destruct Hg as [Hp Hg].
    rewrite <- List.app_comm_cons, octets_loop_step by exact Hp.
    rewrite IH by exact Hg. cbn [List.map].
    now rewrite <- !List.app_assoc.
Qed.

Lemma octets_loop_valid (parts : list string) :
  forallb valid_octet parts = true ->
  octets_loop parts [] [] =
  Returned (List.map (fun p => Py.str (octet_value p)) parts,
            List.map (fun p => Py.format_b 8 (octet_value p)) parts).
Proof.
  intros H. pose proof (octets_loop_skip parts [] [] [] H) as E.
  rewrite List.app_nil_r in E. exact E.
Qed.


Lemma octets_loop_returns (parts dd bb : list string) (r : list string * list string) :
  octets_loop parts dd bb = Returned r -> forallb valid_octet parts = true.
Proof.
  revert dd bb. induction parts as [|part parts IH]; intros dd bb; [reflexivity|].
  cbn [octets_loop forallb].
  destruct (Py.isdigit part) eqn:Hd; cbn [negb]; [|discriminate].
  destruct (decimal_literal part) eqn:Hl.
  - destruct (int_literal part Hl) as (_ & -> & H0). cbn [bind].
    destruct (octet_value part >? 255) eqn:E2; [now rewrite orb_true_r|].
    destruct (octet_value part <? 0); [discriminate|]. cbn [orb].
    intros H. apply IH in H. rewrite H, andb_true_r.
    unfold valid_octet. rewrite Hl. cbn [andb].
    gtb_prop E2. now apply Z.leb_le.
  - rewrite (int_not_literal part Hd Hl). discriminate.
Qed.

Lemma get_ip_address_valid (s : string) :
  let parts := Py.split "." (Py.strip s) in
  List.length parts = 4%nat -> forallb valid_octet parts = true ->
  get_ip_address s =
  Returned (Py.join "." (List.map (fun p => Py.str (octet_value p)) parts),
            Py.join "." (List.map (fun p => Py.format_b 8 (octet_value p)) parts)).
Proof.
  intros parts Hlen Hv. unfold get_ip_address. fold parts.
  rewrite Hlen. cbn [Nat.eqb negb].
  rewrite (octets_loop_valid parts Hv). reflexivity.
Qed.

Lemma get_ip_address_returns (s : string) (r : string * string) :
  get_ip_address s = Returned r ->
  let parts := Py.split "." (Py.strip s) in
  List.length parts = 4%nat /\ forallb valid_octet parts = true.
Proof.
  intros H parts. unfold get_ip_address in H. fold parts in H.
  destruct (List.length parts =? 4)%nat eqn:E; cbn [negb] in H; [|discriminate].
  apply Nat.eqb_eq in E. split; [exact E|].
  destruct (octets_loop parts [] []) as [r'| |] eqn:El; try discriminate.
  exact (octets_loop_returns _ _ _ _ El).
Qed.

Lemma format_octet (v : Z) :
  0 <= v <= 255 ->
  String.length (Py.format_b 8 v) = 8%nat /\
  Py.all Py.is_bit (Py.format_b 8 v) = true /\
  Py.bits_value 0 (Py.format_b 8 v) = v.
Proof.
  intros Hv. apply format_b_spec; [lia|]. change (2 ^ Z.of_nat 8) with 256. lia.
Qed.

Lemma forallb4 (A : Type) (f : A -> bool) (a b c d : A) :
  forallb f [a; b; c; d] = true ->
  f a = true /\ f b = true /\ f c = true /\ f d = true.
Proof.
  cbn [forallb]. rewrite andb_true_r.
  intros [Ha [Hb [Hc Hd]%andb_prop]%andb_prop]%andb_prop. auto.
Qed.

Lemma four_parts (A : Type) (l : list A) :
  List.length l = 4%nat -> exists a b c d, l = [a; b; c; d].
Proof.
  destruct l as [|a [|b [|c [|d [|e l]]]]]; try discriminate.
  intros _. now exists a, b, c, d.
Qed.

(** The integer the program reads back from the binary form of a valid
    address is the four octets packed most significant first. *)
Lemma ip_int_of_valid (s : string) :
  let parts := Py.split "." (Py.strip s) in
  List.length parts = 4%nat -> forallb valid_octet parts = true ->
  ip_int_of s = Returned (pack (List.map octet_value parts)).
Proof.
  intros parts Hlen Hv. unfold ip_int_of.
  rewrite (get_ip_address_valid s Hlen Hv). fold parts. cbn [bind].
  destruct (four_parts _ parts Hlen) as (a & b & c & d & E). rewrite E in *.
  destruct (forallb4 _ _ _ _ _ _ Hv) as (Va & Vb & Vc & Vd).
  apply valid_octet_range in Va, Vb, Vc, Vd.
  destruct Va as [_ Ra], Vb as [_ Rb], Vc as [_ Rc], Vd as [_ Rd].
  destruct (format_octet _ Ra) as (La & Ba & Ea).
  destruct (format_octet _ Rb) as (Lb & Bb & Eb).
  destruct (format_octet _ Rc) as (Lc & Bc & Ec).
  destruct (format_octet _ Rd) as (Ld & Bd & Ed).
  cbn [List.map].
  rewrite remove_join4 by (apply (all_impl _ _ _ bit_not_dot); assumption).
  rewrite int2_bits.
  - f_equal. rewrite pack4, !bits_value_app.
    rewrite (bits_value_acc _ (Py.format_b 8 (octet_value d))),
      (bits_value_acc _ (Py.format_b 8 (octet_value c))),
      (bits_value_acc _ (Py.format_b 8 (octet_value b))).
    rewrite Lb, Lc, Ld, Ea, Eb, Ec, Ed. change (2 ^ Z.of_nat 8) with 256.
    reflexivity.
  - apply nonempty_length. rewrite !string_length_app. lia.
  - rewrite !all_app, Ba, Bb, Bc, Bd. reflexivity.
Qed.

Lemma parsing_range_of_valid_parts (parts : list string) :
  List.length parts = 4%nat -> forallb valid_octet parts = true ->
  0 <= pack (List.map octet_value parts) < 2 ^ 32.
Proof.
  intros Hlen Hv.
  destruct (four_parts _ parts Hlen) as (a & b & c & d & E). rewrite E in *.
  destruct (forallb4 _ _ _ _ _ _ Hv) as (Va & Vb & Vc & Vd).
  apply valid_octet_range in Va, Vb, Vc, Vd.
  cbn [List.map]. apply pack4_range; tauto.
Qed.

(** ** Valid address texts *)

Lemma valid_octet_decimal (part : string) :
  valid_octet part = true ->
  Py.nonempty part = true /\ Py.all Py.is_decimal part = true.
Proof.
  unfold valid_octet, decimal_literal.
  intros [[[Hn Hd]%andb_prop _]%andb_prop _]%andb_prop. auto.
Qed.

Lemma valid_dotted_parts (s : string) :
  valid_dotted s = true ->
  exists a b c d,
    Py.split "." s = [a; b; c; d] /\ s = a ++ "." ++ b ++ "." ++ c ++ "." ++ d /\
    valid_octet a = true /\ valid_octet b = true /\
    valid_octet c = true /\ valid_octet d = true.
Proof.
  unfold valid_dotted. intros [Hl Hv]%andb_prop. apply Nat.eqb_eq in Hl.
  destruct (four_parts _ _ Hl) as (a & b & c & d & E).
  exists a, b, c, d. rewrite E in Hv.
  destruct (forallb4 _ _ _ _ _ _ Hv) as (Va & Vb & Vc & Vd).
  repeat split; try assumption.
  rewrite <- (join_split s) at 1. rewrite E. reflexivity.
Qed.

(** A valid address text has no surrounding whitespace to strip. *)
Lemma strip_valid (s : string) : valid_dotted s = true -> Py.strip s = s.
Proof.
  intros H. destruct (valid_dotted_parts s H) as (a & b & c & d & _ & E & Va & _ & _ & Vd).
  destruct (valid_octet_decimal a Va) as [Na Da].
  destruct (valid_octet_decimal d Vd) as [Nd Dd].
  unfold Py.strip.
  assert (Hl : Py.lstrip s = s).
  { rewrite E. destruct a as [|x a]; [discriminate Na|].
    simpl in Da. apply andb_prop in Da. destruct Da as [Dx _].
    simpl. now rewrite (decimal_not_space _ Dx). }
  rewrite Hl, E.
  replace (a ++ "." ++ b ++ "." ++ c ++ "." ++ d)
    with ((a ++ "." ++ b ++ "." ++ c ++ ".") ++ d)
    by (now rewrite !string_app_assoc).
  rewrite rstrip_app; rewrite (rstrip_decimal d Dd); [reflexivity|].
  destruct d; [discriminate Nd|discriminate].
Qed.

Lemma split_join4 (a b c d : string) :
  Py.all not_dot a = true -> Py.all not_dot b = true ->
  Py.all not_dot c = true -> Py.all not_dot d = true ->
  Py.split "." (Py.join "." [a; b; c; d]) = [a; b; c; d].
Proof.
  intros Ha Hb Hc Hd. unfold Py.join. cbn [String.concat].
  rewrite !split_app_dot by assumption. now rewrite split_no_dot.
Qed.

Lemma str_not_dot (v : Z) : 0 <= v -> Py.all not_dot (Py.str v) = true.
Proof.
  intros Hv. exact (all_impl _ _ _ decimal_not_dot (str_decimal v Hv)).
Qed.

Lemma octet_mod_range (x : Z) : 0 <= x mod 256 <= 255.
Proof. pose proof (Z.mod_pos_bound x 256). lia. Qed.

(** The text of a 32-bit address is valid and reads back as the address. *)
Lemma ip_int_of_dotted (x : Z) :
  0 <= x < 2 ^ 32 ->
  valid_dotted (int_to_dotted x) = true /\ ip_int_of (int_to_dotted x) = Returned x.
Proof.
  intros Hx. rewrite int_to_dotted_octets.
  set (a := (x / 2 ^ 24) mod 256). set (b := (x / 2 ^ 16) mod 256).
  set (c := (x / 2 ^ 8) mod 256). set (d := x mod 256).
  assert (Ra : 0 <= a <= 255) by apply octet_mod_range.
  assert (Rb : 0 <= b <= 255) by apply octet_mod_range.
  assert (Rc : 0 <= c <= 255) by apply octet_mod_range.
  assert (Rd : 0 <= d <= 255) by apply octet_mod_range.
  assert (Hs : Py.split "." (Py.join "." [Py.str a; Py.str b; Py.str c; Py.str d])
               = [Py.str a; Py.str b; Py.str c; Py.str d])
    by (apply split_join4; apply str_not_dot; lia).
  assert (Hv : valid_dotted (Py.join "." [Py.str a; Py.str b; Py.str c; Py.str d]) = true).
  { unfold valid_dotted. rewrite Hs. cbn [List.length Nat.eqb forallb andb].
    now rewrite !str_octet_valid by assumption. }
  split; [exact Hv|].
  pose proof (ip_int_of_valid (Py.join "." [Py.str a; Py.str b; Py.str c; Py.str d])) as H.
  rewrite (strip_valid _ Hv), Hs in H. cbv zeta in H.
  rewrite H.
  - cbn [List.map]. rewrite !octet_value_str by lia.
    f_equal. symmetry. exact (unpack4 x Hx).
  - reflexivity.
  - cbn [forallb]. now rewrite !str_octet_valid by assumption.
Qed.

(** The text of any integer reads back as its residue modulo [2 ^ 32]. *)
Lemma ip_int_of_dotted_mod (x : Z) :
  ip_int_of (int_to_dotted x) = Returned (x mod 2 ^ 32).
Proof.
  rewrite <- int_to_dotted_mod. apply ip_int_of_dotted.
  apply Z.mod_pos_bound. lia.
Qed.

(** ** [get_subnet_ranges] *)

Lemma range_length (n : Z) : List.length (Py.range n) = Z.to_nat n.
Proof. unfold Py.range. now rewrite length_map, length_seq. Qed.

Lemma range_nth (n i : Z) :
  0 <= i < n -> nth_error (Py.range n) (Z.to_nat i) = Some i.
Proof.
  intros Hi. unfold Py.range. rewrite nth_error_map, nth_error_seq.
  destruct (Nat.ltb_spec (Z.to_nat i) (Z.to_nat n)); [|lia].
  simpl. f_equal. lia.
Qed.

Lemma range_nth_inv (n : Z) (i : nat) (x : Z) :
  nth_error (Py.range n) i = Some x -> x = Z.of_nat i /\ 0 <= x < n.
Proof.
  unfold Py.range. rewrite nth_error_map, nth_error_seq.
  destruct (Nat.ltb_spec i (Z.to_nat n)); [|discriminate].
  simpl. intros [= <-]. lia.
Qed.

Lemma entry_fields (base_network_int new_mask size i : Z) :
  let d := subnet_entry base_network_int new_mask size i in
  let n := base_network_int + i * size in
  subnet_index d = i + 1 /\
  network d = int_to_dotted n /\
  broadcast d = int_to_dotted (n + size - 1) /\
  (31 <= new_mask -> first_host d = "N/A" /\ last_host d = "N/A") /\
  (new_mask <= 30 ->
   first_host d = int_to_dotted (n + 1) /\
   last_host d = int_to_dotted (n + size - 1 - 1)).
Proof.
  unfold subnet_entry. cbv zeta.
  destruct (new_mask >=? 31) eqn:E; cbn.
  - repeat split; intros; try reflexivity.
    all: rewrite Z.geb_leb in E; apply Z.leb_le in E; lia.
  - repeat split; intros; try reflexivity.
    all: rewrite Z.geb_leb in E; apply Z.leb_gt in E; lia.
Qed.

Lemma int_to_dotted_not_marker (x : Z) : int_to_dotted x <> "N/A".
Proof.
  rewrite int_to_dotted_octets. unfold Py.join. cbn [String.concat].
  pose proof (octet_mod_range (x / 2 ^ 24)) as R.
  pose proof (str_nonempty _ (proj1 R)) as Hn.
  pose proof (str_decimal _ (proj1 R)) as Hd.
  destruct (Py.str ((x / 2 ^ 24) mod 256)) as [|c s]; [discriminate Hn|].
  simpl in Hd. apply andb_prop in Hd. destruct Hd as [Hc _].
  simpl. intros [= -> _]. discriminate Hc.
Qed.

Section Enumeration.

(** One call of [get_subnet_ranges]. *)
Variables base_network_int new_mask total_subnets : Z.

(** Every descriptor of the list returned is the loop body at its index. *)
Lemma get_subnet_ranges_nth (l : list sub_dict) (i : nat) (d : sub_dict) :
  get_subnet_ranges base_network_int new_mask total_subnets = Returned l ->
  nth_error l i = Some d ->
  new_mask <= 32 /\ 0 <= Z.of_nat i < total_subnets /\
  d = subnet_entry base_network_int new_mask (2 ^ (32 - new_mask)) (Z.of_nat i).
Proof.
  unfold get_subnet_ranges, Py.pow2.
  destruct (32 - new_mask <? 0) eqn:E; [discriminate|].
  apply Z.ltb_ge in E. cbn [bind]. intros [= <-].
  rewrite nth_error_map.
  destruct (nth_error (Py.range total_subnets) i) as [x|] eqn:Ex; [|discriminate].
  apply range_nth_inv in Ex. destruct Ex as [-> Hr].
  simpl. intros [= <-]. repeat split; lia.
Qed.

(** With a prefix of at most 32 the subnet size is an integer and the call
    returns. *)
Hypothesis prefix_at_most_32 : new_mask <= 32.

Lemma get_subnet_ranges_returns :
  get_subnet_ranges base_network_int new_mask total_subnets =
  Returned (List.map (subnet_entry base_network_int new_mask (2 ^ (32 - new_mask)))
              (Py.range total_subnets)).
Proof.
  unfold get_subnet_ranges, Py.pow2.
  destruct (32 - new_mask <? 0) eqn:E; [apply Z.ltb_lt in E; lia|reflexivity].
Qed.

Lemma subnet_size_positive : 0 < 2 ^ (32 - new_mask).
Proof. apply Z.pow_pos_nonneg; lia. Qed.

(** Inside the address space every network and broadcast integer is a 32-bit
    address. *)
Lemma in_space_entry (i : Z) :
  in_address_space base_network_int new_mask total_subnets ->
  0 <= i < total_subnets ->
  0 <= base_network_int + i * 2 ^ (32 - new_mask) /\
  base_network_int + i * 2 ^ (32 - new_mask) + 2 ^ (32 - new_mask) - 1 < 2 ^ 32.
Proof.
  intros [H0 Hs] Hi. pose proof subnet_size_positive. split; nia.
Qed.

End Enumeration.

(** ** [calculate_new_subnet_mask_for_subnets] *)

Lemma calculate_new_subnet_mask_run (p n : Z) :
  0 <= p <= 32 -> 1 <= n ->
  calculate_new_subnet_mask_for_subnets p n =
  if p + Z.log2_up n >? 32 then Raised (ValueError (Cannot_create_subnets n p))
  else Returned (p + Z.log2_up n, 2 ^ Z.log2_up n, Z.log2_up n).
Proof.
  intros Hp Hn. pose proof (Z.log2_up_nonneg n) as Hb.
  unfold calculate_new_subnet_mask_for_subnets, Py.ceil_log2, Py.pow2.
  destruct (Z.leb_spec 0 p); [|lia]. destruct (Z.leb_spec p 32); [|lia].
  destruct (Z.leb_spec n 0); [lia|]. cbn [andb negb bind].
  destruct (p + Z.log2_up n >? 32); [reflexivity|].
  destruct (Z.ltb_spec (Z.log2_up n) 0); [lia|reflexivity].
Qed.

(** ** [cidr_to_subnet_mask] *)

Lemma repeat_length (c : ascii) (n : Z) : String.length (Py.repeat c n) = Z.to_nat n.
Proof.
  unfold Py.repeat. induction (Z.to_nat n) as [|k IH]; simpl; [reflexivity|now f_equal].
Qed.

Lemma repeat_bits (c : ascii) (n : Z) :
  Py.is_bit c = true -> Py.all Py.is_bit (Py.repeat c n) = true.
Proof.
  intros Hc. unfold Py.repeat.
  induction (Z.to_nat n) as [|k IH]; simpl; [reflexivity|now rewrite Hc].
Qed.

Lemma repeat_ones_value (acc n : Z) :
  0 <= n -> Py.bits_value acc (Py.repeat "1" n) = (acc + 1) * 2 ^ n - 1.
Proof.
  intros Hn. unfold Py.repeat. rewrite <- (Z2Nat.id n Hn) at 2.
  generalize (Z.to_nat n) as k. intros k. revert acc.
  induction k as [|k IH]; intros acc.
  - simpl. lia.
  - cbn [List.repeat string_of_list_ascii Py.bits_value].
    change (Ascii.eqb "1" "1") with true. cbv iota. rewrite IH.
    rewrite Nat2Z.inj_succ, Z.pow_succ_r by lia. ring.
Qed.

Lemma repeat_zeros_value (acc n : Z) :
  0 <= n -> Py.bits_value acc (Py.repeat "0" n) = acc * 2 ^ n.
Proof.
  intros Hn. unfold Py.repeat. rewrite <- (Z2Nat.id n Hn) at 2.
  generalize (Z.to_nat n) as k. intros k. revert acc.
  induction k as [|k IH]; intros acc.
  - simpl. lia.
  - cbn [List.repeat string_of_list_ascii Py.bits_value].
    change (Ascii.eqb "0" "1") with false. cbv iota. rewrite IH.
    rewrite Nat2Z.inj_succ, Z.pow_succ_r by lia. ring.
Qed.

Lemma binary_mask_spec (p : Z) :
  0 <= p <= 32 ->
  let t := Py.repeat "1" p ++ Py.repeat "0" (32 - p) in
  String.length t = 32%nat /\ Py.all Py.is_bit t = true /\
  Py.bits_value 0 t = mask_of p.
Proof.
  intros Hp t. subst t. repeat split.
  - rewrite string_length_app, !repeat_length. lia.
  - rewrite all_app, !repeat_bits; reflexivity.
  - rewrite bits_value_app, repeat_ones_value, repeat_zeros_value by lia.
    unfold mask_of. replace 32 with (p + (32 - p)) at 2 by lia.
    rewrite Z.pow_add_r by lia. ring.
Qed.

Lemma mask_of_bits (p i : Z) :
  0 <= p <= 32 -> 0 <= i < 32 -> Z.testbit (mask_of p) i = (32 - p <=? i).
Proof.
  intros Hp Hi.
  assert (E : mask_of p = Z.shiftl (Z.ones p) (32 - p)).
  { rewrite Z.shiftl_mul_pow2, Z.ones_equiv by lia. unfold mask_of, Z.pred.
    replace 32 with (p + (32 - p)) at 1 by lia.
    rewrite Z.pow_add_r by lia. ring. }
  rewrite E, Z.shiftl_spec by lia.
  destruct (Z.leb_spec (32 - p) i).
  - rewrite Z.testbit_ones_nonneg by lia. apply Z.ltb_lt. lia.
  - apply Z.testbit_neg_r. lia.
Qed.

Lemma mask_of_range (p : Z) : 0 <= p <= 32 -> 0 <= mask_of p < 2 ^ 32.
Proof.
  intros Hp. unfold mask_of.
  assert (0 < 2 ^ (32 - p)) by (apply Z.pow_pos_nonneg; lia).
  assert (2 ^ (32 - p) <= 2 ^ 32) by (apply Z.pow_le_mono_r; lia).
  lia.
Qed.

Lemma cidr_to_subnet_mask_returns (p : Z) :
  0 <= p <= 32 ->
  cidr_to_subnet_mask p =
    Returned (int_to_dotted (mask_of p),
              Py.join "." (octets_of (Py.repeat "1" p ++ Py.repeat "0" (32 - p)))) /\
  mask_int_of p = Returned (mask_of p).
Proof.
  intros Hp. destruct (binary_mask_spec p Hp) as (Hl & Hb & Hv).
  destruct (bits32 _ Hl Hb) as (Hd & Hi & _).
  unfold mask_int_of, cidr_to_subnet_mask.
  destruct (Z.leb_spec 0 p); [|lia]. destruct (Z.leb_spec p 32); [|lia].
  cbn [andb negb]. rewrite Hd. cbn [bind]. rewrite Hi, Hv. split; reflexivity.
Qed.

(** ** [get_network_address] and the main script *)

Lemma land_range (a m : Z) : 0 <= a < 2 ^ 32 -> 0 <= Z.land a m < 2 ^ 32.
Proof.
  intros Ha.
  assert (E : Z.land a m = Z.land (Z.land a m) (Z.ones 32)).
  { rewrite <- Z.land_assoc, (Z.land_comm m), Z.land_assoc.
    now rewrite (Z.land_ones a), Z.mod_small by lia. }
  rewrite E, Z.land_ones by lia. apply Z.mod_pos_bound. lia.
Qed.

Lemma get_network_address_spec (ip_binary mask_binary : string) (a m : Z) :
  Py.int2 (Py.remove "." ip_binary) = Returned a ->
  Py.int2 (Py.remove "." mask_binary) = Returned m ->
  0 <= a < 2 ^ 32 ->
  exists network_binary_format,
    get_network_address ip_binary mask_binary =
      Returned (int_to_dotted (Z.land a m), network_binary_format) /\
    Py.int2 (Py.remove "." network_binary_format) = Returned (Z.land a m).
Proof.
  intros Ha Hm Hr. unfold get_network_address. rewrite Ha, Hm. cbn [bind].
  destruct (format_b_spec 32 (Z.land a m)) as (Hl & Hb & Hv);
    [lia|exact (land_range a m Hr)|].
  destruct (bits32 _ Hl Hb) as (Hd & Hi & _).
  rewrite Hd. cbn [bind]. rewrite Hv in Hd, Hi |- *.
  eexists. split; [reflexivity|exact Hi].
Qed.

Lemma calculate_possible_hosts_returns (c : Z) :
  c <= 32 -> exists h, calculate_possible_hosts c = Returned h.
Proof.
  intros Hc. unfold calculate_possible_hosts, Py.pow2.
  destruct (c =? 32); [now eexists|]. destruct (c =? 31); [now eexists|].
  destruct (Z.ltb_spec (32 - c) 0); [lia|]. now eexists.
Qed.

Lemma calculate_new_subnet_mask_returns (p n : Z) (r : Z * Z * Z) :
  calculate_new_subnet_mask_for_subnets p n = Returned r ->
  0 <= p <= 32 /\ 1 <= n /\ p + Z.log2_up n <= 32 /\
  r = (p + Z.log2_up n, 2 ^ Z.log2_up n, Z.log2_up n).
Proof.
  intros H.
  assert (Hp : 0 <= p <= 32).
  { unfold calculate_new_subnet_mask_for_subnets in H.
    destruct (Z.leb_spec 0 p); destruct (Z.leb_spec p 32);
      cbn [andb negb] in H; try discriminate H. lia. }
  assert (Hn : 1 <= n).
  { unfold calculate_new_subnet_mask_for_subnets in H.
    destruct (negb _); [discriminate H|].
    destruct (Z.leb_spec n 0); [discriminate H|lia]. }
  rewrite (calculate_new_subnet_mask_run p n Hp Hn) in H.
  destruct (p + Z.log2_up n >? 32) eqn:E; [discriminate H|].
  gtb_prop E.
  injection H as <-. auto.
Qed.

Lemma testbit_above (a i : Z) : 0 <= a < 2 ^ 32 -> 32 <= i -> Z.testbit a i = false.
Proof.
  intros Ha Hi. destruct (Z.eq_dec a 0) as [->|Hne]; [apply Z.testbit_0_l|].
  apply Z.bits_above_log2; [lia|].
  assert (Z.log2 a < 32) by (apply Z.log2_lt_pow2; lia). lia.
Qed.

(** Masking with the mask of a prefix clears the [32 - p] low bits. *)
Lemma land_mask_of (a p : Z) :
  0 <= a < 2 ^ 32 -> 0 <= p <= 32 ->
  Z.land a (mask_of p) = 2 ^ (32 - p) * (a / 2 ^ (32 - p)).
Proof.
  intros Ha Hp. rewrite Z.mul_comm, <- Z.shiftl_mul_pow2, <- Z.shiftr_div_pow2 by lia.
  apply Z.bits_inj'. intros i Hi.
  rewrite Z.land_spec, Z.shiftl_spec by lia.
  destruct (Z.lt_ge_cases i (32 - p)) as [Hlow|Hhigh].
  - rewrite (Z.testbit_neg_r _ (i - (32 - p))) by lia.
    rewrite mask_of_bits by lia.
    destruct (Z.leb_spec (32 - p) i); [lia|apply andb_false_r].
  - rewrite Z.shiftr_spec by lia. replace (i - (32 - p) + (32 - p)) with i by lia.
    destruct (Z.lt_ge_cases i 32) as [H32|H32].
    + rewrite mask_of_bits by lia.
      destruct (Z.leb_spec (32 - p) i); [apply andb_true_r|lia].
    + rewrite (testbit_above a i Ha H32). reflexivity.
Qed.

(** The block of the original prefix, cut in [2 ^ b] subnets of the new
    prefix, stays inside the address space. *)
Lemma plan_in_address_space (a p b : Z) :
  0 <= a < 2 ^ 32 -> 0 <= p -> 0 <= b -> p + b <= 32 ->
  in_address_space (Z.land a (mask_of p)) (p + b) (2 ^ b).
Proof.
  intros Ha Hp Hb Hpb. rewrite land_mask_of by lia.
  assert (Hk : 0 < 2 ^ (32 - p)) by (apply Z.pow_pos_nonneg; lia).
  assert (Hq : 0 <= a / 2 ^ (32 - p) < 2 ^ p).
  { split; [apply Z.div_pos; lia|].
    apply Z.div_lt_upper_bound; [lia|]. rewrite <- Z.pow_add_r by lia.
    replace (32 - p + p) with 32 by lia. lia. }
  assert (E : 2 ^ b * 2 ^ (32 - (p + b)) = 2 ^ (32 - p)).
  { rewrite <- Z.pow_add_r by lia. f_equal. lia. }
  assert (E32 : 2 ^ (32 - p) * 2 ^ p = 2 ^ 32).
  { rewrite <- Z.pow_add_r by lia. f_equal. lia. }
  unfold in_address_space. rewrite E. split; nia.
Qed.

(** The run of the main script on an accepted address and a feasible
    request. *)
Lemma main_run (input_ipv4_address : string) (original_mask number_of_subnets : Z)
      (r : string * string) :
  get_ip_address input_ipv4_address = Returned r ->
  0 <= original_mask <= 32 -> 1 <= number_of_subnets ->
  original_mask + Z.log2_up number_of_subnets <= 32 ->
  exists (a : Z) (res : results),
    ip_int_of input_ipv4_address = Returned a /\ 0 <= a < 2 ^ 32 /\
    main input_ipv4_address original_mask number_of_subnets = Returned res /\
    new_mask res = original_mask + Z.log2_up number_of_subnets /\
    total_subnets res = 2 ^ Z.log2_up number_of_subnets /\
    bits_borrowed res = Z.log2_up number_of_subnets /\
    base_network_int res = Z.land a (mask_of original_mask) /\
    base_network_dotted res = int_to_dotted (Z.land a (mask_of original_mask)) /\
    get_subnet_ranges (base_network_int res) (new_mask res) (total_subnets res)
      = Returned (all_subnets res).
Proof.
  intros Hip Hp Hn Hcap.
  set (b := Z.log2_up number_of_subnets) in *.
  assert (Hb : 0 <= b) by apply Z.log2_up_nonneg.
  destruct (get_ip_address_returns _ _ Hip) as [Hlen Hval].
  pose proof (ip_int_of_valid input_ipv4_address Hlen Hval) as Ha.
  pose proof (parsing_range_of_valid_parts _ Hlen Hval) as Hra.
  set (a := pack (List.map octet_value (Py.split "." (Py.strip input_ipv4_address)))) in *.
  destruct r as [dotted binary].
  assert (Hbin : Py.int2 (Py.remove "." binary) = Returned a).
  { unfold ip_int_of in Ha. rewrite Hip in Ha. exact Ha. }
  destruct (cidr_to_subnet_mask_returns original_mask Hp) as [Hmask Hmi].
  unfold mask_int_of in Hmi. rewrite Hmask in Hmi. cbn [bind] in Hmi.
  destruct (get_network_address_spec _ _ _ _ Hbin Hmi Hra) as (nb & Hnet & Hnb).
  assert (Hnew : 0 <= original_mask + b <= 32) by lia.
  destruct (cidr_to_subnet_mask_returns _ Hnew) as [Hmask' _].
  destruct (calculate_possible_hosts_returns (original_mask + b)) as [h Hh]; [lia|].
  pose proof (get_subnet_ranges_returns (Z.land a (mask_of original_mask))
                (original_mask + b) (2 ^ b) (proj2 Hnew)) as Hsub.
  assert (Hplan : calculate_new_subnet_mask_for_subnets original_mask number_of_subnets
                  = Returned (original_mask + b, 2 ^ b, b)).
  { rewrite (calculate_new_subnet_mask_run _ _ Hp Hn). fold b.
    destruct (original_mask + b >? 32) eqn:E; [|reflexivity].
    gtb_prop E. lia. }
  exists a. eexists. split; [exact Ha|]. split; [exact Hra|]. split.
  - unfold main. rewrite Hplan. cbn [bind]. rewrite Hip. cbn [bind].
    rewrite Hmask. cbn [bind]. rewrite Hnet. cbn [bind]. rewrite Hnb. cbn [bind].
    rewrite Hmask'. cbn [bind]. rewrite Hh. cbn [bind]. rewrite Hsub. cbn [bind].
    reflexivity.
  - cbn [new_mask total_subnets bits_borrowed base_network_int base_network_dotted
           all_subnets].
    repeat split. exact Hsub.
Qed.

(** Every run of the main script that reaches the enumeration enumerates
    inside the address space. *)
Lemma main_in_address_space (input_ipv4_address : string)
      (original_mask number_of_subnets : Z) (res : results) :
  main input_ipv4_address original_mask number_of_subnets = Returned res ->
  in_address_space (base_network_int res) (new_mask res) (total_subnets res) /\
  get_subnet_ranges (base_network_int res) (new_mask res) (total_subnets res)
    = Returned (all_subnets res).
Proof.
  intros Hmain.
  destruct (calculate_new_subnet_mask_for_subnets original_mask number_of_subnets)
    as [plan| |] eqn:Hplan;
    try (unfold main in Hmain; rewrite Hplan in Hmain; discriminate Hmain).
  destruct (calculate_new_subnet_mask_returns _ _ _ Hplan) as (Hp & Hn & Hcap & _).
  destruct (get_ip_address input_ipv4_address) as [r| |] eqn:Hip;
    try (unfold main in Hmain; rewrite Hplan, Hip in Hmain;
         destruct plan as [[? ?] ?]; discriminate Hmain).
  destruct (main_run _ _ _ _ Hip Hp Hn Hcap)
    as (a & res' & _ & Hra & Hres & Hnm & Hts & _ & Hbase & _ & Hsub).
  rewrite Hmain in Hres. injection Hres as <-.
  split; [|exact Hsub].
  rewrite Hnm, Hts, Hbase. apply plan_in_address_space; try lia.
  apply Z.log2_up_nonneg.
Qed.

(** ** Runs of the program *)

(** 10.10.10.10/24 in four subnets: 2 bits borrowed, prefix 26, base
    10.10.10.0; the first and the last subnet. *)
Example run_24_in_4 :
  exists res,
    main "10.10.10.10" 24 4 = Returned res /\
    (bits_borrowed res, new_mask res, total_subnets res) = (2, 26, 4) /\
    base_network_dotted res = "10.10.10.0" /\
    hosts_per_subnet res = 62 /\
    nth_error (all_subnets res) 0 =
      Some {| subnet_index := 1; network := "10.10.10.0"; broadcast := "10.10.10.63";
              first_host := "10.10.10.1"; last_host := "10.10.10.62" |} /\
    nth_error (all_subnets res) 3 =
      Some {| subnet_index := 4; network := "10.10.10.192"; broadcast := "10.10.10.255";
              first_host := "10.10.10.193"; last_host := "10.10.10.254" |}.
Proof. eexists. split; [vm_compute; reflexivity|]. repeat split. Qed.

(** One subnet borrows nothing; three subnets of a /30 are four /32, without
    host range; 100000 subnets do not fit a /20. *)
Example plans :
  calculate_new_subnet_mask_for_subnets 30 1 = Returned (30, 1, 0) /\
  calculate_new_subnet_mask_for_subnets 30 3 = Returned (32, 4, 2) /\
  calculate_new_subnet_mask_for_subnets 20 100000 =
    Raised (ValueError (Cannot_create_subnets 100000 20)) /\
  calculate_new_subnet_mask_for_subnets 24 0 =
    Raised (ValueError Number_of_subnets_must_be_positive) /\
  calculate_new_subnet_mask_for_subnets 33 1 =
    Raised (ValueError CIDR_must_be_between_0_and_32).
Proof. repeat split. Qed.

Example run_30_in_3 :
  get_subnet_ranges 3232235776 32 4 =
  Returned
    [ {| subnet_index := 1; network := "192.168.1.0"; broadcast := "192.168.1.0";
         first_host := "N/A"; last_host := "N/A" |};
      {| subnet_index := 2; network := "192.168.1.1"; broadcast := "192.168.1.1";
         first_host := "N/A"; last_host := "N/A" |};
      {| subnet_index := 3; network := "192.168.1.2"; broadcast := "192.168.1.2";
         first_host := "N/A"; last_host := "N/A" |};
      {| subnet_index := 4; network := "192.168.1.3"; broadcast := "192.168.1.3";
         first_host := "N/A"; last_host := "N/A" |} ].
Proof. vm_compute. reflexivity. Qed.

(** What [get_ip_address] refuses, and the message of each refusal; the
    last text ends with the superscript two, a digit for [isdigit] that [int]
    rejects. *)
Example refusals :
  get_ip_address "10.10.10" = Raised (ValueError Must_have_exactly_four_octets) /\
  get_ip_address "10.10.10.10.10" = Raised (ValueError Must_have_exactly_four_octets) /\
  get_ip_address "10..10.10" = Raised (ValueError (Octet_is_not_a_valid_number "")) /\
  get_ip_address "10.-1.10.10" = Raised (ValueError (Octet_is_not_a_valid_number "-1")) /\
  get_ip_address "10. 1.10.10" = Raised (ValueError (Octet_is_not_a_valid_number " 1")) /\
  get_ip_address "10.10.10.256" = Raised (ValueError (Octet_is_outside_0_255_range "256")) /\
  get_ip_address ("10.10.10." ++ String (ascii_of_nat 178) "")
    = Raised (ValueError Invalid_literal_for_int).
Proof. repeat split. Qed.

(** * The claims *)

(** ** Overflow of the enumeration *)

(** C1, as worded, fails: the last /24 block of the address space asked for
    two subnets runs past [2 ^ 32 - 1], and [get_subnet_ranges] returns two
    descriptors, the second one wrapped to 0.0.0.0, instead of raising. *)
Lemma overflow_not_reported : ~ overflow_is_reported.
Proof.
  intros H. specialize (H 4294967040 24 2).
  assert (E : get_subnet_ranges 4294967040 24 2 =
              Returned [ {| subnet_index := 1; network := "255.255.255.0";
                            broadcast := "255.255.255.255";
                            first_host := "255.255.255.1";
                            last_host := "255.255.255.254" |};
                         {| subnet_index := 2; network := "0.0.0.0";
                            broadcast := "0.0.0.255";
                            first_host := "0.0.0.1";
                            last_host := "0.0.0.254" |} ])
    by (vm_compute; reflexivity).
  rewrite E in H. discriminate H. vm_compute. reflexivity.
Qed.

(** C1, amended.  [get_subnet_ranges] has no overflow check: for a prefix up
    to 32 and an enumeration that runs past [2 ^ 32 - 1] it raises nothing and
    returns one descriptor for each subnet, the addresses rendered modulo
    [2 ^ 32]: the network and broadcast texts read back as the residues of
    the integers computed. *)
Theorem overflow_wraps (base_network_int new_mask total_subnets : Z) :
  new_mask <= 32 ->
  base_network_int + total_subnets * 2 ^ (32 - new_mask) - 1 > 2 ^ 32 - 1 ->
  exists l,
    get_subnet_ranges base_network_int new_mask total_subnets = Returned l /\
    List.length l = Z.to_nat total_subnets /\
    forall i, 0 <= i < total_subnets ->
      exists d, nth_error l (Z.to_nat i) = Some d /\
        let n := base_network_int + i * 2 ^ (32 - new_mask) in
        let b := n + 2 ^ (32 - new_mask) - 1 in
        network d = int_to_dotted (n mod 2 ^ 32) /\
        broadcast d = int_to_dotted (b mod 2 ^ 32) /\
        ip_int_of (network d) = Returned (n mod 2 ^ 32) /\
        ip_int_of (broadcast d) = Returned (b mod 2 ^ 32).
Proof.
  intros Hm _. eexists. split; [now apply get_subnet_ranges_returns|].
  split; [now rewrite length_map, range_length|].
  intros i Hi. eexists. split.
  - apply map_nth_error, range_nth, Hi.
  - cbv zeta.
    destruct (entry_fields base_network_int new_mask (2 ^ (32 - new_mask)) i)
      as (_ & Hn & Hb & _).
    rewrite Hn, Hb, !int_to_dotted_mod, !ip_int_of_dotted_mod. auto.
Qed.

Lemma overflow_wraps_witness :
  exists l d,
    get_subnet_ranges 4294967040 24 2 = Returned l /\
    nth_error l 1 = Some d /\ ip_int_of (network d) = Returned 0.
Proof.
  destruct (overflow_wraps 4294967040 24 2) as (l & Hl & _ & H);
    [lia|reflexivity|].
  destruct (H 1) as (d & Hd & _ & _ & Hn & _); [lia|].
  exists l, d. split; [exact Hl|]. split; [exact Hd|exact Hn].
Defined.

(** ** The planner *)



(** ** Round trip *)

(** C3. Text and integer forms of an address round-trip: the text of every
    integer of [0, 2 ^ 32 - 1] reads back as that integer, and every valid
    dotted-decimal text reads as an integer whose text is the normal form of
    the text, each octet without its leading zeros (this is also the dotted
    form [get_ip_address] returns). *)
Theorem address_roundtrip :
  (forall x : Z, 0 <= x < 2 ^ 32 -> ip_int_of (int_to_dotted x) = Returned x) /\
  (forall s : string,
      valid_dotted s = true ->
      exists x binary,
        ip_int_of s = Returned x /\ 0 <= x < 2 ^ 32 /\
        int_to_dotted x = normalize s /\
        get_ip_address s = Returned (normalize s, binary)).
Proof.
  split.
  - intros x Hx. now apply ip_int_of_dotted.
  - intros s Hs.
    destruct (valid_dotted_parts s Hs) as (a & b & c & d & E & _ & Va & Vb & Vc & Vd).
    pose proof (ip_int_of_valid s) as Hi. pose proof (get_ip_address_valid s) as Hg.
    rewrite (strip_valid s Hs), E in Hi, Hg. cbv zeta in Hi, Hg.
    assert (Hv : forallb valid_octet [a; b; c; d] = true)
      by (cbn [forallb]; now rewrite Va, Vb, Vc, Vd).
    specialize (Hi eq_refl Hv). specialize (Hg eq_refl Hv).
    destruct (valid_octet_range a Va) as [La Ra].
    destruct (valid_octet_range b Vb) as [Lb Rb].
    destruct (valid_octet_range c Vc) as [Lc Rc].
    destruct (valid_octet_range d Vd) as [Ld Rd].
    assert (Hn : Py.join "." (List.map (fun p => Py.str (octet_value p)) [a; b; c; d])
                 = normalize s).
    { unfold normalize. rewrite E. cbn [List.map].
      now rewrite !str_octet_value by assumption. }
    do 2 eexists. split; [exact Hi|]. cbn [List.map].
    split; [now apply pack4_range|]. split.
    + rewrite int_to_dotted_pack by assumption. exact Hn.
    + rewrite Hg, Hn. reflexivity.
Qed.

Lemma address_roundtrip_witness :
  ip_int_of (int_to_dotted 3232235777) = Returned 3232235777 /\
  exists x binary,
    ip_int_of "010.000.1.007" = Returned x /\ 0 <= x < 2 ^ 32 /\
    int_to_dotted x = normalize "010.000.1.007" /\
    get_ip_address "010.000.1.007" = Returned (normalize "010.000.1.007", binary).
Proof.
  split.
  - apply (proj1 address_roundtrip). vm_compute. split; [discriminate|reflexivity].
  - apply (proj2 address_roundtrip). reflexivity.
Defined.

(** ** Contiguity *)


(** The two descriptors of that enumeration. *)
Example wrapped_enumeration :
  get_subnet_ranges 0 0 2 =
  Returned [ {| subnet_index := 1; network := "0.0.0.0";
                broadcast := "255.255.255.255";
                first_host := "0.0.0.1"; last_host := "255.255.255.254" |};
             {| subnet_index := 2; network := "0.0.0.0";
                broadcast := "255.255.255.255";
                first_host := "0.0.0.1"; last_host := "255.255.255.254" |} ].
Proof. vm_compute. reflexivity. Qed.



(** ** Host ranges *)



(** ** Prefix to mask *)

(** C6. For a prefix from 0 to 32, [cidr_to_subnet_mask] returns the mask
    whose integer has, among its 32 bits, exactly the top [p] set: bit [i]
    is set exactly when [32 - p <= i]; the mask of 0 is 0 and the mask of 32
    is [2 ^ 32 - 1].  For every other prefix it raises the range error. *)
Theorem prefix_to_mask (p : Z) :
  (0 <= p <= 32 ->
   exists dotted binary,
     cidr_to_subnet_mask p = Returned (dotted, binary) /\
     Py.int2 (Py.remove "." binary) = Returned (mask_of p) /\
     dotted = int_to_dotted (mask_of p) /\
     0 <= mask_of p < 2 ^ 32 /\
     (forall i, 0 <= i < 32 -> Z.testbit (mask_of p) i = (32 - p <=? i))) /\
  (~ 0 <= p <= 32 ->
   cidr_to_subnet_mask p = Raised (ValueError CIDR_must_be_in_0_32) /\
   kind_of CIDR_must_be_in_0_32 = RangeError) /\
  mask_int_of 0 = Returned 0 /\ mask_int_of 32 = Returned (2 ^ 32 - 1).
Proof.
  split; [|split; [|split]].
  - intros Hp. destruct (cidr_to_subnet_mask_returns p Hp) as [Hc Hm].
    do 2 eexists. split; [exact Hc|].
    split.
    + unfold mask_int_of in Hm. rewrite Hc in Hm. exact Hm.
    + split; [reflexivity|]. split; [now apply mask_of_range|].
      intros i Hi. now apply mask_of_bits.
  - intros Hp. split; [|reflexivity]. unfold cidr_to_subnet_mask.
    destruct (Z.leb_spec 0 p); destruct (Z.leb_spec p 32); try reflexivity. lia.
  - reflexivity.
  - reflexivity.
Qed.

Lemma prefix_to_mask_witness :
  (exists dotted binary, cidr_to_subnet_mask 24 = Returned (dotted, binary)) /\
  cidr_to_subnet_mask 33 = Raised (ValueError CIDR_must_be_in_0_32).
Proof.
  split.
  - destruct (proj1 (prefix_to_mask 24)) as (dotted & binary & H & _); [lia|].
    exists dotted, binary. exact H.
  - apply (proj1 (proj2 (prefix_to_mask 33))). lia.
Defined.

(** ** Parsing *)


(** The error of a text with several faulty parts is that of the first one:
    here the range error of "999", although "x" is not a number. *)
Example first_faulty_part_decides :
  get_ip_address "999.x.1.1" = Raised (ValueError (Octet_is_outside_0_255_range "999")) /\
  get_ip_address "x.999.1.1" = Raised (ValueError (Octet_is_not_a_valid_number "x")).
Proof. split; reflexivity. Qed.



(** ** The base network *)

(** C8. For every address text [get_ip_address] accepts and every plan that
    succeeds, the base network the main script computes is the bitwise AND of
    the address integer with the mask of the original prefix (whatever the
    new prefix), in integer and in dotted form; with the original prefix 0 it
    is 0.0.0.0 for every address. *)
Theorem base_network_of_original_prefix
        (input_ipv4_address : string) (original_mask number_of_subnets : Z)
        (r : string * string) :
  get_ip_address input_ipv4_address = Returned r ->
  0 <= original_mask <= 32 -> 1 <= number_of_subnets ->
  original_mask + Z.log2_up number_of_subnets <= 32 ->
  exists (a : Z) (res : results),
    ip_int_of input_ipv4_address = Returned a /\
    mask_int_of original_mask = Returned (mask_of original_mask) /\
    main input_ipv4_address original_mask number_of_subnets = Returned res /\
    new_mask res = original_mask + Z.log2_up number_of_subnets /\
    base_network_int res = Z.land a (mask_of original_mask) /\
    base_network_dotted res = int_to_dotted (Z.land a (mask_of original_mask)) /\
    (original_mask = 0 ->
     base_network_int res = 0 /\ base_network_dotted res = "0.0.0.0").
Proof.
  intros Hip Hp Hn Hcap.
  destruct (main_run _ _ _ _ Hip Hp Hn Hcap)
    as (a & res & Ha & _ & Hres & Hnm & _ & _ & Hbase & Hdot & _).
  exists a, res. split; [exact Ha|].
  split; [exact (proj2 (cidr_to_subnet_mask_returns _ Hp))|].
  split; [exact Hres|]. split; [exact Hnm|]. split; [exact Hbase|].
  split; [exact Hdot|].
  intros ->. rewrite Hbase, Hdot. change (mask_of 0) with 0.
  rewrite Z.land_0_r. split; reflexivity.
Qed.

Lemma base_network_of_original_prefix_witness :
  exists (a : Z) (res : results),
    ip_int_of "255.255.255.255" = Returned a /\
    main "255.255.255.255" 0 1 = Returned res /\
    base_network_dotted res = "0.0.0.0".
Proof.
  destruct (base_network_of_original_prefix "255.255.255.255" 0 1
              ("255.255.255.255", "11111111.11111111.11111111.11111111"))
    as (a & res & Ha & _ & Hm & _ & _ & _ & H0);
    [reflexivity|lia|lia|vm_compute; discriminate|].
  exists a, res. split; [exact Ha|]. split; [exact Hm|]. exact (proj2 (H0 eq_refl)).
Defined.

(** The base network comes from the original prefix, not from the new one:
    10.10.10.200/24 split in four has base 10.10.10.0, where the new prefix
    26 would give 10.10.10.192. *)
Example base_network_not_of_new_prefix :
  option_map (fun res => (new_mask res, base_network_dotted res))
    (match main "10.10.10.200" 24 4 with Returned res => Some res | _ => None end)
  = Some (26, "10.10.10.0") /\
  int_to_dotted (Z.land 168430280 (mask_of 26)) = "10.10.10.192".
Proof. split; vm_compute; reflexivity. Qed.

(** ** Hosts per subnet *)

(** C9. [calculate_possible_hosts] returns [2 ^ (32 - p) - 2] for a prefix
    from 0 to 30, 2 for 31 and 1 for 32; so for the prefixes 31 and 32, which
    are exactly those whose descriptors carry the marker "N/A" as host range,
    the count it reports is positive. *)
Theorem hosts_per_prefix (p : Z) :
  0 <= p <= 32 ->
  exists h,
    calculate_possible_hosts p = Returned h /\
    (p <= 30 -> h = 2 ^ (32 - p) - 2) /\
    (p = 31 -> h = 2) /\
    (p = 32 -> h = 1) /\
    forall (base_network_int total_subnets : Z) (l : list sub_dict) (d : sub_dict),
      get_subnet_ranges base_network_int p total_subnets = Returned l ->
      In d l ->
      (31 <= p -> first_host d = "N/A" /\ last_host d = "N/A" /\ 0 < h) /\
      (p <= 30 -> first_host d <> "N/A" /\ last_host d <> "N/A").
Proof.
  intros Hp.
  assert (Hd : forall (base_network_int total_subnets : Z) (l : list sub_dict) (d : sub_dict),
             get_subnet_ranges base_network_int p total_subnets = Returned l ->
             In d l ->
             (31 <= p -> first_host d = "N/A" /\ last_host d = "N/A") /\
             (p <= 30 -> first_host d <> "N/A" /\ last_host d <> "N/A")).
  { intros base total l d Hl Hin. apply In_nth_error in Hin. destruct Hin as [i Hi].
    destruct (get_subnet_ranges_nth _ _ _ _ _ _ Hl Hi) as (_ & _ & ->).
    destruct (entry_fields base p (2 ^ (32 - p)) (Z.of_nat i)) as (_ & _ & _ & Hhi & Hlo).
    split; [exact Hhi|]. intros H30. destruct (Hlo H30) as [-> ->].
    split; apply int_to_dotted_not_marker. }
  assert (Hd' : forall h, 0 < h ->
             forall (base_network_int total_subnets : Z) (l : list sub_dict) (d : sub_dict),
               get_subnet_ranges base_network_int p total_subnets = Returned l ->
               In d l ->
               (31 <= p -> first_host d = "N/A" /\ last_host d = "N/A" /\ 0 < h) /\
               (p <= 30 -> first_host d <> "N/A" /\ last_host d <> "N/A")).
  { intros h Hh base total l d Hl Hin.
    destruct (Hd base total l d Hl Hin) as [Hhi Hlo].
    split; [|exact Hlo]. intros H31. destruct (Hhi H31). auto. }
  unfold calculate_possible_hosts, Py.pow2.
  destruct (Z.eqb_spec p 32) as [->|H32].
  - exists 1. split; [reflexivity|]. do 3 (split; [lia|]). apply Hd'. lia.
  - destruct (Z.eqb_spec p 31) as [->|H31].
    + exists 2. split; [reflexivity|]. do 3 (split; [lia|]). apply Hd'. lia.
    + destruct (32 - p <? 0) eqn:E; [apply Z.ltb_lt in E; lia|].
      exists (2 ^ (32 - p) - 2). cbn [bind]. split; [reflexivity|].
      do 3 (split; [lia|]). apply Hd'.
      assert (4 <= 2 ^ (32 - p)); [|lia].
      change 4 with (2 ^ 2). apply Z.pow_le_mono_r; lia.
Qed.

Lemma hosts_per_prefix_witness :
  exists h, calculate_possible_hosts 31 = Returned h /\ h = 2.
Proof.
  destruct (hosts_per_prefix 31) as (h & Hh & _ & H31 & _); [lia|].
  exists h. split; [exact Hh|exact (H31 eq_refl)].
Defined.

(** ** Wrapping of the dotted form *)

(** C10. [int_to_dotted] reduces its argument modulo [2 ^ 32]: the text of
    every integer, nonnegative or not, is the text of its residue, so an
    address past the top of the 32-bit space is rendered wrapped, not
    rejected ([2 ^ 32] reads "0.0.0.0"). *)
Theorem int_to_dotted_wraps :
  (forall x : Z, int_to_dotted x = int_to_dotted (x mod 2 ^ 32)) /\
  int_to_dotted (2 ^ 32) = "0.0.0.0" /\
  int_to_dotted (2 ^ 32 + 3232235777) = "192.168.1.1".
Proof.
  split; [|split].
  - intros x. symmetry. apply int_to_dotted_mod.
  - rewrite <- int_to_dotted_mod. reflexivity.
  - rewrite <- int_to_dotted_mod. reflexivity.
Qed.

(** * Further properties of the program *)

(** ** Binary texts *)

Lemma is_bit_cases (c : ascii) : Py.is_bit c = true -> c = "0"%char \/ c = "1"%char.
Proof.
  unfold Py.is_bit. intros [H|H]%orb_prop; apply Ascii.eqb_eq in H; auto.
Qed.

(** Two binary texts of the same length with the same value are the same. *)
Lemma bits_text_inj (a b : string) :
  Py.all Py.is_bit a = true -> Py.all Py.is_bit b = true ->
  String.length a = String.length b ->
  Py.bits_value 0 a = Py.bits_value 0 b -> a = b.
Proof.
  revert b. induction a as [|x a IH]; intros [|y b]; try discriminate; [reflexivity|].
  cbn [Py.all String.length Py.bits_value].
  intros [Hx Ha]%andb_prop [Hy Hb]%andb_prop [= Hl] Hv.
  rewrite (bits_value_acc _ a), (bits_value_acc _ b), Hl in Hv.
  pose proof (bits_value_range a) as Ra. pose proof (bits_value_range b) as Rb.
  rewrite Hl in Ra.
  assert (Hp : 0 < 2 ^ Z.of_nat (String.length b)) by (apply Z.pow_pos_nonneg; lia).
  set (P := 2 ^ Z.of_nat (String.length b)) in *.
  destruct (is_bit_cases x Hx) as [->| ->], (is_bit_cases y Hy) as [->| ->];
    cbn [Ascii.eqb Bool.eqb] in Hv.
  - f_equal. apply IH; auto; lia.
  - exfalso. lia.
  - exfalso. lia.
  - f_equal. apply IH; auto; lia.
Qed.

(** [format(v, '0wb')] undoes the base-2 reading of a binary text of [w]
    characters. *)
Lemma format_bits_value (w : nat) (c : string) :
  (0 < w)%nat -> String.length c = w -> Py.all Py.is_bit c = true ->
  Py.format_b w (Py.bits_value 0 c) = c.
Proof.
  intros Hw Hl Hb. pose proof (bits_value_range c) as R. rewrite Hl in R.
  destruct (format_b_spec w _ Hw R) as (Fl & Fb & Fv).
  apply bits_text_inj; auto. congruence.
Qed.

(** The octets of a 32-character binary text are the 8-character forms of
    the octets of its value. *)
Lemma octets_of_value (t : string) :
  String.length t = 32%nat -> Py.all Py.is_bit t = true ->
  octets_of t =
  List.map (fun i => Py.format_b 8 (Z.land (Z.shiftr (Py.bits_value 0 t) (8 * i)) 255))
    [3; 2; 1; 0].
Proof.
  intros Hl Hb.
  destruct (octets_of_32 t Hl) as (c1 & c2 & c3 & c4 & -> & Ht & L1 & L2 & L3 & L4).
  pose proof Hb as Hb'. rewrite Ht, !all_app in Hb'.
  apply andb_prop in Hb'. destruct Hb' as [B1 Hb'].
  apply andb_prop in Hb'. destruct Hb' as [B2 Hb'].
  apply andb_prop in Hb'. destruct Hb' as [B3 B4].
  destruct (octet_of_bits c1 L1 B1) as [_ R1].
  destruct (octet_of_bits c2 L2 B2) as [_ R2].
  destruct (octet_of_bits c3 L3 B3) as [_ R3].
  destruct (octet_of_bits c4 L4 B4) as [_ R4].
  assert (Hv : Py.bits_value 0 t =
               pack [Py.bits_value 0 c1; Py.bits_value 0 c2;
                     Py.bits_value 0 c3; Py.bits_value 0 c4]).
  { rewrite pack4, Ht, !bits_value_app.
    rewrite (bits_value_acc _ c4), (bits_value_acc _ c3), (bits_value_acc _ c2).
    rewrite L2, L3, L4. change (2 ^ Z.of_nat 8) with 256. reflexivity. }
  cbn [List.map]. rewrite Hv, !octet_at by lia.
  change (8 * 3) with 24. change (8 * 2) with 16. change (8 * 1) with 8.
  change (8 * 0) with 0. rewrite Z.pow_0_r, Z.div_1_r.
  destruct (pack4_octets _ _ _ _ R1 R2 R3 R4) as (-> & -> & -> & ->).
  now rewrite !format_bits_value by (auto; lia).
Qed.

(** ** The two forms of a 32-bit number *)

Lemma binary_form_octets (x : Z) :
  0 <= x < 2 ^ 32 ->
  binary_form x =
  Py.join "." [Py.format_b 8 ((x / 2 ^ 24) mod 256); Py.format_b 8 ((x / 2 ^ 16) mod 256);
               Py.format_b 8 ((x / 2 ^ 8) mod 256); Py.format_b 8 (x mod 256)].
Proof.
  intros Hx. unfold binary_form.
  destruct (format_b_spec 32 x) as (Hl & Hb & Hv); [lia|exact Hx|].
  rewrite (octets_of_value _ Hl Hb), Hv. cbn [List.map].
  rewrite !octet_at by lia.
  change (8 * 3) with 24. change (8 * 2) with 16. change (8 * 1) with 8.
  change (8 * 0) with 0. now rewrite Z.pow_0_r, Z.div_1_r.
Qed.

(** The binary form reads back, in base 2 without its dots, as the number. *)
Lemma binary_form_value (x : Z) :
  0 <= x < 2 ^ 32 ->
  Py.int2 (Py.remove "." (binary_form x)) = Returned x /\
  octets_to_decimal (octets_of (Py.format_b 32 x)) =
    Returned (List.map (fun i => Py.str (Z.land (Z.shiftr x (8 * i)) 255)) [3; 2; 1; 0]).
Proof.
  intros Hx. destruct (format_b_spec 32 x) as (Hl & Hb & Hv); [lia|exact Hx|].
  destruct (bits32 _ Hl Hb) as (Hd & Hi & _). rewrite Hv in Hd, Hi.
  split; [exact Hi|exact Hd].
Qed.

(** What [get_ip_address] returns is the dotted form and the binary form of
    one 32-bit number, the address integer. *)
Lemma get_ip_address_forms (s : string) (r : string * string) :
  get_ip_address s = Returned r ->
  exists a, 0 <= a < 2 ^ 32 /\ ip_int_of s = Returned a /\
            r = (int_to_dotted a, binary_form a).
Proof.
  intros Hr. destruct (get_ip_address_returns _ _ Hr) as [Hlen Hv].
  pose proof (get_ip_address_valid s Hlen Hv) as Hg.
  pose proof (ip_int_of_valid s Hlen Hv) as Hi.
  pose proof (parsing_range_of_valid_parts _ Hlen Hv) as Hra.
  destruct (four_parts _ _ Hlen) as (p1 & p2 & p3 & p4 & E). rewrite E in *.
  destruct (forallb4 _ _ _ _ _ _ Hv) as (V1 & V2 & V3 & V4).
  apply valid_octet_range in V1, V2, V3, V4.
  destruct V1 as [_ R1], V2 as [_ R2], V3 as [_ R3], V4 as [_ R4].
  eexists. split; [exact Hra|]. split; [exact Hi|].
  rewrite Hr in Hg. injection Hg as ->. cbn [List.map]. f_equal.
  - now rewrite int_to_dotted_pack.
  - rewrite binary_form_octets by (now apply pack4_range).
    destruct (pack4_octets _ _ _ _ R1 R2 R3 R4) as (-> & -> & -> & ->). reflexivity.
Qed.

Lemma get_ip_address_dotted (x : Z) :
  0 <= x < 2 ^ 32 ->
  get_ip_address (int_to_dotted x) = Returned (int_to_dotted x, binary_form x).
Proof.
  intros Hx. destruct (ip_int_of_dotted x Hx) as [_ Hi].
  destruct (get_ip_address (int_to_dotted x)) as [r| |] eqn:Hr;
    try (unfold ip_int_of in Hi; rewrite Hr in Hi; discriminate Hi).
  destruct (get_ip_address_forms _ _ Hr) as (a & _ & Ha & ->).
  rewrite Hi in Ha. injection Ha as <-. reflexivity.
Qed.

Lemma cidr_to_subnet_mask_forms (p : Z) :
  0 <= p <= 32 ->
  cidr_to_subnet_mask p = Returned (int_to_dotted (mask_of p), binary_form (mask_of p)).
Proof.
  intros Hp. destruct (cidr_to_subnet_mask_returns p Hp) as [-> _].
  destruct (binary_mask_spec p Hp) as (Hl & Hb & Hv). cbv zeta in Hl, Hb, Hv.
  do 2 f_equal. rewrite (octets_of_value _ Hl Hb), Hv.
  pose proof (mask_of_range p Hp) as Hr.
  unfold binary_form.
  destruct (format_b_spec 32 (mask_of p)) as (Fl & Fb & Fv); [lia|exact Hr|].
  now rewrite (octets_of_value _ Fl Fb), Fv.
Qed.

(** ** Network and broadcast integers *)

Lemma inverted_mask_range (m : Z) : 0 <= Z.land (Z.lnot m) 4294967295 < 2 ^ 32.
Proof.
  change 4294967295 with (Z.ones 32). rewrite Z.land_ones by lia.
  apply Z.mod_pos_bound. lia.
Qed.

Lemma lor_range (a w : Z) :
  0 <= a < 2 ^ 32 -> 0 <= w < 2 ^ 32 -> 0 <= Z.lor a w < 2 ^ 32.
Proof.
  intros Ha Hw.
  assert (E : Z.lor a w = Z.lor a w mod 2 ^ 32).
  { apply Z.bits_inj'. intros i Hi. rewrite Z.testbit_mod_pow2 by lia.
    destruct (Z.ltb_spec i 32); [reflexivity|].
    now rewrite Z.lor_spec, !testbit_above by lia. }
  rewrite E. apply Z.mod_pos_bound. lia.
Qed.

(** The complement of the mask of a prefix, on 32 bits, is the low
    [32 - p] bits. *)
Lemma inverted_mask_of (p : Z) :
  0 <= p <= 32 -> Z.land (Z.lnot (mask_of p)) 4294967295 = 2 ^ (32 - p) - 1.
Proof.
  intros Hp. change 4294967295 with (Z.ones 32). rewrite Z.land_ones by lia.
  assert (Hk : 0 < 2 ^ (32 - p) <= 2 ^ 32).
  { split; [apply Z.pow_pos_nonneg; lia|apply Z.pow_le_mono_r; lia]. }
  unfold Z.lnot, mask_of, Z.pred.
  replace (- (2 ^ 32 - 2 ^ (32 - p)) + -1) with (2 ^ (32 - p) - 1 + (-1) * 2 ^ 32) by ring.
  rewrite Z.mod_add by lia. apply Z.mod_small. lia.
Qed.

(** Setting the low [k] bits of a number. *)
Lemma lor_low_bits (a k : Z) :
  0 <= k -> Z.lor a (2 ^ k - 1) = 2 ^ k * (a / 2 ^ k) + 2 ^ k - 1.
Proof.
  intros Hk. pose proof (Z.add_lor_land a (2 ^ k - 1)) as H.
  replace (2 ^ k - 1) with (Z.ones k) in H at 2 by (rewrite Z.ones_equiv; lia).
  rewrite Z.land_ones in H by lia.
  assert (0 < 2 ^ k) by (apply Z.pow_pos_nonneg; lia).
  pose proof (Z.div_mod a (2 ^ k)). lia.
Qed.

(** The broadcast integer under the mask of a prefix is the network integer
    plus the size of the block minus 1. *)
Lemma broadcast_of_prefix (a p : Z) :
  0 <= a < 2 ^ 32 -> 0 <= p <= 32 ->
  Z.lor a (Z.land (Z.lnot (mask_of p)) 4294967295)
  = Z.land a (mask_of p) + 2 ^ (32 - p) - 1.
Proof.
  intros Ha Hp. rewrite inverted_mask_of, lor_low_bits, land_mask_of by lia.
  reflexivity.
Qed.

Lemma get_network_address_forms (ip_binary mask_binary : string) (a m : Z) :
  Py.int2 (Py.remove "." ip_binary) = Returned a ->
  Py.int2 (Py.remove "." mask_binary) = Returned m ->
  0 <= a < 2 ^ 32 ->
  get_network_address ip_binary mask_binary =
    Returned (int_to_dotted (Z.land a m), binary_form (Z.land a m)).
Proof.
  intros Ha Hm Hr. unfold get_network_address. rewrite Ha, Hm. cbn [bind].
  destruct (binary_form_value _ (land_range a m Hr)) as [_ ->]. reflexivity.
Qed.

Lemma get_broadcast_address_forms (ip_binary mask_binary : string) (a m : Z) :
  Py.int2 (Py.remove "." ip_binary) = Returned a ->
  Py.int2 (Py.remove "." mask_binary) = Returned m ->
  0 <= a < 2 ^ 32 ->
  let b := Z.lor a (Z.land (Z.lnot m) 4294967295) in
  get_broadcast_address ip_binary mask_binary =
    Returned (binary_form b, int_to_dotted b) /\
  0 <= b < 2 ^ 32.
Proof.
  intros Ha Hm Hr b.
  assert (Hb : 0 <= b < 2 ^ 32) by (apply lor_range; [exact Hr|apply inverted_mask_range]).
  split; [|exact Hb].
  unfold get_broadcast_address. rewrite Ha, Hm. cbn [bind]. fold b.
  destruct (binary_form_value _ Hb) as [_ ->]. reflexivity.
Qed.

(** ** The steps of the main script *)

Lemma planner_outcome (p n : Z) :
  (exists plan, calculate_new_subnet_mask_for_subnets p n = Returned plan) \/
  (exists m, calculate_new_subnet_mask_for_subnets p n = Raised (ValueError m)).
Proof.
  unfold calculate_new_subnet_mask_for_subnets, Py.ceil_log2, Py.pow2.
  destruct (negb _); [right; now eexists|].
  destruct (Z.leb_spec n 0); [right; now eexists|]. cbn [bind].
  destruct (_ >? 32); [right; now eexists|].
  pose proof (Z.log2_up_nonneg n).
  destruct (Z.ltb_spec (Z.log2_up n) 0); [lia|]. left. now eexists.
Qed.

Lemma octets_loop_outcome (parts dd bb : list string) :
  (exists r, octets_loop parts dd bb = Returned r) \/
  (exists m, octets_loop parts dd bb = Raised (ValueError m)).
Proof.
  revert dd bb. induction parts as [|part parts IH]; intros dd bb.
  - left. now eexists.
  - cbn [octets_loop]. destruct (Py.isdigit part) eqn:Hd; cbn [negb];
      [|right; now eexists].
    destruct (decimal_literal part) eqn:Hl.
    + destruct (int_literal part Hl) as (_ & -> & _). cbn [bind].
      destruct (_ || _); [right; now eexists|apply IH].
    + rewrite (int_not_literal part Hd Hl). right. now eexists.
Qed.

Lemma get_ip_address_outcome (s : string) :
  (exists r, get_ip_address s = Returned r) \/
  (exists m, get_ip_address s = Raised (ValueError m)).
Proof.
  unfold get_ip_address. destruct (negb _); [right; now eexists|].
  destruct (octets_loop_outcome (Py.split "." (Py.strip s)) [] []) as [[[d b] ->]|[m ->]].
  - left. now eexists.
  - right. now eexists.
Qed.

(** Every step of a run of the main script that ends with results. *)
Lemma main_steps (input_ipv4_address : string) (original_mask number_of_subnets : Z)
      (res : results) :
  main input_ipv4_address original_mask number_of_subnets = Returned res ->
  calculate_new_subnet_mask_for_subnets original_mask number_of_subnets
    = Returned (new_mask res, total_subnets res, bits_borrowed res) /\
  get_ip_address input_ipv4_address
    = Returned (dotted_decimal_ip res, binary_format_ip res) /\
  cidr_to_subnet_mask original_mask
    = Returned (orig_mask_dotted res, orig_mask_binary res) /\
  get_network_address (binary_format_ip res) (orig_mask_binary res)
    = Returned (base_network_dotted res, base_network_binary res) /\
  Py.int2 (Py.remove "." (base_network_binary res)) = Returned (base_network_int res) /\
  cidr_to_subnet_mask (new_mask res)
    = Returned (new_mask_dotted res, new_mask_binary res) /\
  calculate_possible_hosts (new_mask res) = Returned (hosts_per_subnet res) /\
  get_subnet_ranges (base_network_int res) (new_mask res) (total_subnets res)
    = Returned (all_subnets res).
Proof.
  unfold main.
  destruct (calculate_new_subnet_mask_for_subnets _ _) as [[[nm ts] bo]| |] eqn:E1;
    cbn [bind]; try discriminate.
  destruct (get_ip_address _) as [[dd bi]| |] eqn:E2; cbn [bind]; try discriminate.
  destruct (cidr_to_subnet_mask original_mask) as [[od ob]| |] eqn:E3;
    cbn [bind]; try discriminate.
  destruct (get_network_address bi ob) as [[nd nb]| |] eqn:E4;
    cbn [bind]; try discriminate.
  destruct (Py.int2 (Py.remove "." nb)) as [bn| |] eqn:E5; cbn [bind]; try discriminate.
  destruct (cidr_to_subnet_mask nm) as [[md mb]| |] eqn:E6; cbn [bind]; try discriminate.
  destruct (calculate_possible_hosts nm) as [h| |] eqn:E7; cbn [bind]; try discriminate.
  destruct (get_subnet_ranges bn nm ts) as [l| |] eqn:E8; cbn [bind]; try discriminate.
  intros [= <-]. cbn. repeat split; assumption.
Qed.

(** The fields of the results in terms of the address integer [a], the
    original prefix and the bits borrowed. *)
Lemma main_fields (input_ipv4_address : string) (original_mask number_of_subnets : Z)
      (res : results) :
  main input_ipv4_address original_mask number_of_subnets = Returned res ->
  exists a,
    0 <= a < 2 ^ 32 /\ ip_int_of input_ipv4_address = Returned a /\
    0 <= original_mask <= 32 /\ 1 <= number_of_subnets /\
    0 <= bits_borrowed res /\
    bits_borrowed res = Z.log2_up number_of_subnets /\
    new_mask res = original_mask + bits_borrowed res /\ new_mask res <= 32 /\
    total_subnets res = 2 ^ bits_borrowed res /\
    (dotted_decimal_ip res, binary_format_ip res) = (int_to_dotted a, binary_form a) /\
    (orig_mask_dotted res, orig_mask_binary res)
      = (int_to_dotted (mask_of original_mask), binary_form (mask_of original_mask)) /\
    (new_mask_dotted res, new_mask_binary res)
      = (int_to_dotted (mask_of (new_mask res)), binary_form (mask_of (new_mask res))) /\
    base_network_int res = Z.land a (mask_of original_mask) /\
    (base_network_dotted res, base_network_binary res)
      = (int_to_dotted (base_network_int res), binary_form (base_network_int res)) /\
    all_subnets res =
      List.map (subnet_entry (base_network_int res) (new_mask res)
                  (2 ^ (32 - new_mask res)))
        (Py.range (total_subnets res)).
Proof.
  intros Hmain.
  destruct (main_steps _ _ _ _ Hmain) as (Hplan & Hip & Hom & Hnet & Hbn & Hnm & _ & Hsub).
  destruct (calculate_new_subnet_mask_returns _ _ _ Hplan) as (Hp & Hn & Hcap & [= Enm Ets Ebb]).
  destruct (get_ip_address_forms _ _ Hip) as (a & Hra & Ha & Eip).
  pose proof (Z.log2_up_nonneg number_of_subnets) as Hb0.
  assert (Hnew : 0 <= new_mask res <= 32) by lia.
  rewrite (cidr_to_subnet_mask_forms _ Hp) in Hom.
  rewrite (cidr_to_subnet_mask_forms _ Hnew) in Hnm.
  injection Hom as Eod Eob. injection Hnm as End Enb. injection Eip as Edd Ebi.
  assert (Hia : Py.int2 (Py.remove "." (binary_format_ip res)) = Returned a)
    by (rewrite Ebi; now apply binary_form_value).
  assert (Him : Py.int2 (Py.remove "." (orig_mask_binary res))
                = Returned (mask_of original_mask))
    by (rewrite <- Eob; apply binary_form_value, mask_of_range, Hp).
  rewrite (get_network_address_forms _ _ _ _ Hia Him Hra) in Hnet.
  injection Hnet as Ebd Ebb'.
  assert (Ebase : base_network_int res = Z.land a (mask_of original_mask)).
  { rewrite <- Ebb' in Hbn.
    destruct (binary_form_value _ (land_range a (mask_of original_mask) Hra)) as [E _].
    rewrite E in Hbn. now injection Hbn. }
  rewrite (get_subnet_ranges_returns _ _ _ (proj2 Hnew)) in Hsub. injection Hsub as Eall.
  exists a. rewrite Ebase. rewrite <- Ebd, <- Ebb', <- Eod, <- Eob, <- End, <- Enb.
  rewrite Edd, Ebi. rewrite <- Eall, Ebase.
  repeat split; try lia; congruence.
Qed.

(** * Further theorems *)

(** ** Broadcast and network addresses *)

(** X1. [get_broadcast_address], on the binary texts of a 32-bit address [a]
    and of any mask [m], returns the broadcast address [a | (~m & 0xFFFFFFFF)],
    which is a 32-bit address not below [a], as the pair (binary form, dotted
    form): the two texts [get_ip_address] returns for the dotted one, in the
    opposite order. *)
Theorem broadcast_address (ip_binary mask_binary : string) (a m : Z) :
  Py.int2 (Py.remove "." ip_binary) = Returned a ->
  Py.int2 (Py.remove "." mask_binary) = Returned m ->
  0 <= a < 2 ^ 32 ->
  exists (b : Z) (binary dotted : string),
    b = Z.lor a (Z.land (Z.lnot m) 4294967295) /\
    get_broadcast_address ip_binary mask_binary = Returned (binary, dotted) /\
    get_ip_address dotted = Returned (dotted, binary) /\
    ip_int_of dotted = Returned b /\
    Py.int2 (Py.remove "." binary) = Returned b /\
    a <= b < 2 ^ 32.
Proof.
  intros Ha Hm Hr.
  destruct (get_broadcast_address_forms _ _ _ _ Ha Hm Hr) as [Hg Hb].
  cbv zeta in Hg, Hb.
  do 3 eexists. split; [reflexivity|]. split; [exact Hg|].
  split; [now apply get_ip_address_dotted|].
  split; [now apply ip_int_of_dotted|].
  split; [now apply binary_form_value|].
  split; [|apply Hb].
  pose proof (Z.sub_lor_l_same_l (Z.land (Z.lnot m) 4294967295) a) as E.
  assert (0 <= Z.land (Z.land (Z.lnot m) 4294967295) (Z.lnot a)).
  { apply Z.land_nonneg. left. apply inverted_mask_range. }
  lia.
Qed.

Lemma broadcast_address_witness :
  exists (b : Z) (binary dotted : string),
    get_broadcast_address "00001010.00001010.00001010.00001010"
                          "11111111.11111111.11111111.00000000"
      = Returned (binary, dotted) /\
    ip_int_of dotted = Returned b /\ 168430090 <= b < 2 ^ 32.
Proof.
  destruct (broadcast_address "00001010.00001010.00001010.00001010"
              "11111111.11111111.11111111.00000000" 168430090 4294967040)
    as (b & binary & dotted & _ & Hg & _ & Hi & _ & Hr);
    [reflexivity|reflexivity|split; [discriminate|reflexivity]|].
  exists b, binary, dotted. auto.
Defined.

(** X2. For an accepted address and a prefix from 0 to 32, the network
    address of [get_network_address] and the broadcast address of
    [get_broadcast_address] under the mask of the prefix bracket the address:
    the network integer is a multiple of the block size [2 ^ (32 - p)], the
    broadcast integer is the network integer plus the block size minus 1, and
    the address lies between them. *)
Theorem network_and_broadcast (ip_string : string) (p : Z) (dotted binary : string) :
  get_ip_address ip_string = Returned (dotted, binary) -> 0 <= p <= 32 ->
  exists (a n b : Z) (mask_dotted mask_binary : string),
    ip_int_of ip_string = Returned a /\
    cidr_to_subnet_mask p = Returned (mask_dotted, mask_binary) /\
    get_network_address binary mask_binary = Returned (int_to_dotted n, binary_form n) /\
    get_broadcast_address binary mask_binary = Returned (binary_form b, int_to_dotted b) /\
    n mod 2 ^ (32 - p) = 0 /\ b = n + 2 ^ (32 - p) - 1 /\
    0 <= n <= a /\ a <= b < 2 ^ 32.
Proof.
  intros Hip Hp.
  destruct (get_ip_address_forms _ _ Hip) as (a & Hra & Ha & [= -> ->]).
  pose proof (cidr_to_subnet_mask_forms p Hp) as Hmask.
  destruct (binary_form_value a Hra) as [Hia _].
  destruct (binary_form_value _ (mask_of_range p Hp)) as [Him _].
  pose proof (get_network_address_forms _ _ _ _ Hia Him Hra) as Hn.
  destruct (get_broadcast_address_forms _ _ _ _ Hia Him Hra) as [Hb Hrb].
  cbv zeta in Hb, Hrb. rewrite broadcast_of_prefix in Hb, Hrb by lia.
  assert (Hk : 0 < 2 ^ (32 - p)) by (apply Z.pow_pos_nonneg; lia).
  pose proof (land_mask_of a p Hra Hp) as El.
  pose proof (Z.mul_div_le a (2 ^ (32 - p)) Hk) as Hle.
  pose proof (Z.div_pos a (2 ^ (32 - p)) (proj1 Hra) Hk) as Hq.
  pose proof (Z.mod_pos_bound a (2 ^ (32 - p)) Hk) as Hmod.
  pose proof (Z.div_mod a (2 ^ (32 - p))) as Hdm.
  exists a, (Z.land a (mask_of p)), (Z.land a (mask_of p) + 2 ^ (32 - p) - 1).
  do 2 eexists. split; [exact Ha|]. split; [exact Hmask|].
  split; [exact Hn|]. split; [exact Hb|].
  split; [rewrite El, Z.mul_comm; apply Z.mod_mul; lia|].
  split; [reflexivity|]. rewrite El in *. split; [nia|]. split; [lia|apply Hrb].
Qed.

Lemma network_and_broadcast_witness :
  exists (a n b : Z),
    ip_int_of "10.10.10.200" = Returned a /\
    get_network_address "00001010.00001010.00001010.11001000"
        "11111111.11111111.11111111.11000000"
      = Returned (int_to_dotted n, binary_form n) /\
    b = n + 2 ^ (32 - 26) - 1 /\ n <= a /\ a <= b.
Proof.
  destruct (network_and_broadcast "10.10.10.200" 26
              "10.10.10.200" "00001010.00001010.00001010.11001000")
    as (a & n & b & md & mb & Ha & Hm & Hn & _ & _ & Hb & Hna & Hab & _);
    [reflexivity|lia|].
  vm_compute in Hm. injection Hm as <- <-.
  exists a, n, b. repeat split; auto. lia.
Defined.

(** X3. Taking the network address is idempotent and does not change the
    broadcast address: on the binary text of a 32-bit address and any mask,
    [get_network_address] applied to the binary form it returns gives the
    same pair again, and [get_broadcast_address] gives the same pair for the
    address and for its network address. *)
Theorem network_address_idempotent (ip_binary mask_binary : string) (a m : Z) :
  Py.int2 (Py.remove "." ip_binary) = Returned a ->
  Py.int2 (Py.remove "." mask_binary) = Returned m ->
  0 <= a < 2 ^ 32 ->
  exists network_dotted network_binary : string,
    get_network_address ip_binary mask_binary
      = Returned (network_dotted, network_binary) /\
    get_network_address network_binary mask_binary
      = Returned (network_dotted, network_binary) /\
    get_broadcast_address network_binary mask_binary
      = get_broadcast_address ip_binary mask_binary.
Proof.
  intros Ha Hm Hr.
  pose proof (land_range a m Hr) as Hrn.
  destruct (binary_form_value _ Hrn) as [Hin _].
  do 2 eexists. split; [now apply (get_network_address_forms _ _ a m)|].
  split.
  - rewrite (get_network_address_forms _ _ _ _ Hin Hm Hrn).
    now rewrite <- Z.land_assoc, Z.land_diag.
  - destruct (get_broadcast_address_forms _ _ _ _ Hin Hm Hrn) as [-> _].
    destruct (get_broadcast_address_forms _ _ _ _ Ha Hm Hr) as [-> _].
    assert (E : Z.lor (Z.land a m) (Z.land (Z.lnot m) 4294967295)
                = Z.lor a (Z.land (Z.lnot m) 4294967295)).
    { apply Z.bits_inj'. intros i Hi.
      rewrite !Z.lor_spec, !Z.land_spec, Z.lnot_spec by lia.
      destruct (Z.testbit a i) eqn:Ea, (Z.testbit m i); try reflexivity.
      change 4294967295 with (Z.ones 32).
      destruct (Z.ltb_spec i 32) as [Hlt|Hge].
      - now rewrite Z.testbit_ones_nonneg, (proj2 (Z.ltb_lt i 32) Hlt) by lia.
      - rewrite (testbit_above a i Hr Hge) in Ea. discriminate Ea. }
    now rewrite E.
Qed.

Lemma network_address_idempotent_witness :
  get_network_address "00001010.00001010.00001010.00000000"
                      "11111111.11111111.11111111.00000000"
  = Returned ("10.10.10.0", "00001010.00001010.00001010.00000000").
Proof.
  destruct (network_address_idempotent "00001010.00001010.00001010.11001000"
              "11111111.11111111.11111111.00000000" 168430280 4294967040)
    as (nd & nb & H1 & H2 & _);
    [reflexivity|reflexivity|split; [discriminate|reflexivity]|].
  vm_compute in H1. injection H1 as <- <-. exact H2.
Defined.

(** ** Canonical texts *)

(** X4. What [get_ip_address] returns is canonical: the dotted form it
    returns is accepted again, unchanged and with the same binary form;
    the binary form is 35 characters long and reads back, in base 2
    without its dots, as the address integer. *)
Theorem get_ip_address_canonical (ip_string dotted binary : string) :
  get_ip_address ip_string = Returned (dotted, binary) ->
  get_ip_address dotted = Returned (dotted, binary) /\
  ip_int_of dotted = ip_int_of ip_string /\
  Py.int2 (Py.remove "." binary) = ip_int_of ip_string /\
  String.length binary = 35%nat.
Proof.
  intros Hip. destruct (get_ip_address_forms _ _ Hip) as (a & Hra & Ha & [= -> ->]).
  split; [now apply get_ip_address_dotted|].
  split; [rewrite Ha; now apply ip_int_of_dotted|].
  split; [rewrite Ha; now apply binary_form_value|].
  rewrite binary_form_octets by exact Hra. unfold Py.join. cbn [String.concat].
  rewrite !string_length_app.
  destruct (format_octet _ (octet_mod_range (a / 2 ^ 24))) as (-> & _).
  destruct (format_octet _ (octet_mod_range (a / 2 ^ 16))) as (-> & _).
  destruct (format_octet _ (octet_mod_range (a / 2 ^ 8))) as (-> & _).
  destruct (format_octet _ (octet_mod_range a)) as (-> & _).
  reflexivity.
Qed.

Lemma get_ip_address_canonical_witness :
  get_ip_address "10.0.1.7" = Returned ("10.0.1.7", "00001010.00000000.00000001.00000111").
Proof.
  apply (get_ip_address_canonical " 010.000.1.007 "). reflexivity.
Defined.

(** X5. The dotted mask [cidr_to_subnet_mask] returns for a prefix from 0 to
    32 is an address text [get_ip_address] accepts, and it gives back the
    same pair, dotted form and binary form. *)
Theorem mask_is_an_address (p : Z) :
  0 <= p <= 32 ->
  exists mask_dotted mask_binary : string,
    cidr_to_subnet_mask p = Returned (mask_dotted, mask_binary) /\
    get_ip_address mask_dotted = Returned (mask_dotted, mask_binary) /\
    ip_int_of mask_dotted = Returned (mask_of p).
Proof.
  intros Hp. pose proof (mask_of_range p Hp) as Hr.
  do 2 eexists. split; [now apply cidr_to_subnet_mask_forms|].
  split; [now apply get_ip_address_dotted|now apply ip_int_of_dotted].
Qed.

Lemma mask_is_an_address_witness :
  get_ip_address "255.255.255.192"
  = Returned ("255.255.255.192", "11111111.11111111.11111111.11000000").
Proof.
  destruct (mask_is_an_address 26) as (md & mb & Hm & Hg & _); [lia|].
  vm_compute in Hm. injection Hm as <- <-. exact Hg.
Defined.

(** X6. Longer prefixes give larger masks, and two prefixes from 0 to 32
    with the same result of [cidr_to_subnet_mask] are the same prefix. *)
Theorem masks_distinct (p q : Z) :
  0 <= p <= 32 -> 0 <= q <= 32 ->
  (p < q -> mask_of p < mask_of q) /\
  (cidr_to_subnet_mask p = cidr_to_subnet_mask q -> p = q) /\
  mask_int_of p = Returned (mask_of p).
Proof.
  intros Hp Hq.
  assert (Hmono : forall x y, 0 <= x <= 32 -> 0 <= y <= 32 -> x < y ->
                               mask_of x < mask_of y).
  { intros x y Hx Hy Hxy. unfold mask_of.
    assert (2 ^ (32 - y) < 2 ^ (32 - x)) by (apply Z.pow_lt_mono_r; lia). lia. }
  split; [now apply Hmono|]. split; [|apply cidr_to_subnet_mask_returns, Hp].
  rewrite !cidr_to_subnet_mask_forms by assumption. intros [= Hd _].
  pose proof (ip_int_of_dotted _ (mask_of_range p Hp)) as [_ Ep].
  pose proof (ip_int_of_dotted _ (mask_of_range q Hq)) as [_ Eq].
  rewrite Hd, Eq in Ep. injection Ep as Em.
  destruct (Z.lt_trichotomy p q) as [H|[H|H]]; [|exact H|].
  - pose proof (Hmono p q Hp Hq H). lia.
  - pose proof (Hmono q p Hq Hp H). lia.
Qed.

Lemma masks_distinct_witness : mask_of 24 < mask_of 26.
Proof.
  apply (proj1 (masks_distinct 24 26 ltac:(lia) ltac:(lia))). lia.
Defined.

(** X7. [int_to_dotted] gives the same text for two integers exactly when
    they are congruent modulo [2 ^ 32]; in particular it gives different
    texts to different 32-bit addresses. *)
Theorem int_to_dotted_congruent (x y : Z) :
  int_to_dotted x = int_to_dotted y <-> x mod 2 ^ 32 = y mod 2 ^ 32.
Proof.
  split.
  - intros H. pose proof (ip_int_of_dotted_mod x) as Hx.
    rewrite H, ip_int_of_dotted_mod in Hx. now injection Hx.
  - intros H. now rewrite <- (int_to_dotted_mod x), H, int_to_dotted_mod.
Qed.

(** X8. Whatever the integer, [int_to_dotted] returns a valid address text,
    four octets in [0, 255] without leading zeros: [get_ip_address] accepts
    it and returns it unchanged, with the binary form of the integer modulo
    [2 ^ 32]. *)
Theorem int_to_dotted_is_canonical (x : Z) :
  valid_dotted (int_to_dotted x) = true /\
  normalize (int_to_dotted x) = int_to_dotted x /\
  get_ip_address (int_to_dotted x)
    = Returned (int_to_dotted x, binary_form (x mod 2 ^ 32)).
Proof.
  assert (Hr : 0 <= x mod 2 ^ 32 < 2 ^ 32) by (apply Z.mod_pos_bound; lia).
  pose proof (get_ip_address_dotted _ Hr) as Hg.
  destruct (ip_int_of_dotted _ Hr) as [Hv Hi].
  rewrite int_to_dotted_mod in Hg, Hv, Hi.
  split; [exact Hv|]. split; [|exact Hg].
  assert (Hz : forall v, 0 <= v <= 255 -> strip_zeros (Py.str v) = Py.str v).
  { intros v Rv. rewrite <- (str_octet_value _ (str_octet_literal v Rv)).
    now rewrite octet_value_str by lia. }
  rewrite int_to_dotted_octets. unfold normalize.
  rewrite split_join4 by (apply str_not_dot, octet_mod_range).
  cbn [List.map]. now rewrite !Hz by apply octet_mod_range.
Qed.

(** ** The planner *)



(** X10. A plan never provides fewer subnets than desired, and fewer than
    twice as many: the total is the power of two [2 ^ bits] with
    [desired <= total < 2 * desired]; the new prefix is the original one plus
    the bits borrowed, at most 32, and the subnets of the new prefix fill the
    block of the original prefix exactly. *)
Theorem plan_rounds_up (base_mask desired_subnets new_mask total_subnets bits : Z) :
  calculate_new_subnet_mask_for_subnets base_mask desired_subnets
    = Returned (new_mask, total_subnets, bits) ->
  desired_subnets <= total_subnets < 2 * desired_subnets /\
  total_subnets = 2 ^ bits /\ 0 <= bits /\
  new_mask = base_mask + bits /\ 0 <= base_mask <= new_mask /\ new_mask <= 32 /\
  total_subnets * 2 ^ (32 - new_mask) = 2 ^ (32 - base_mask).
Proof.
  intros H.
  destruct (calculate_new_subnet_mask_returns _ _ _ H) as (Hp & Hn & Hcap & [= -> -> ->]).
  pose proof (Z.log2_up_nonneg desired_subnets) as Hb.
  assert (Hup : desired_subnets <= 2 ^ Z.log2_up desired_subnets).
  { destruct (Z.eq_dec desired_subnets 1) as [->|H1]; [simpl; lia|].
    apply Z.log2_up_spec. lia. }
  assert (Hlow : 2 ^ Z.log2_up desired_subnets < 2 * desired_subnets).
  { destruct (Z.eq_dec desired_subnets 1) as [->|H1]; [simpl; lia|].
    assert (H2 : 1 < desired_subnets) by lia.
    pose proof (proj1 (Z.log2_up_spec _ H2)) as Hs.
    replace (Z.log2_up desired_subnets) with (Z.succ (Z.pred (Z.log2_up desired_subnets)))
      at 1 by lia.
    rewrite Z.pow_succ_r; [lia|].
    pose proof (Z.log2_up_pos _ H2). lia. }
  repeat split; try lia.
  rewrite <- Z.pow_add_r by lia. f_equal. lia.
Qed.

Lemma plan_rounds_up_witness : 5 <= 8 < 2 * 5.
Proof.
  apply (plan_rounds_up 24 5 27 8 3). reflexivity.
Defined.

(** ** Hosts *)

Lemma returned_inj (A : Type) (x y : A) : Returned x = Returned y -> x = y.
Proof. now intros [= ->]. Qed.

Lemma calculate_possible_hosts_value (p : Z) :
  (p <= 30 -> calculate_possible_hosts p = Returned (2 ^ (32 - p) - 2)) /\
  calculate_possible_hosts 31 = Returned 2 /\
  calculate_possible_hosts 32 = Returned 1.
Proof.
  split; [|split; reflexivity]. intros H. unfold calculate_possible_hosts, Py.pow2.
  destruct (Z.eqb_spec p 32); [lia|]. destruct (Z.eqb_spec p 31); [lia|].
  destruct (Z.ltb_spec (32 - p) 0); [lia|reflexivity].
Qed.

(** X11. [calculate_possible_hosts] counts the addresses of the host range
    of [get_subnet_ranges]: for an enumeration inside the address space with
    a prefix up to 30, the addresses from the first host to the last host of
    every descriptor are as many as the count; with the prefixes 31 and 32,
    where the host range is "N/A", the count is the number of addresses from
    the network address to the broadcast address. *)
Theorem hosts_count_matches_range
        (base_network_int p total : Z) (l : list sub_dict) (d : sub_dict) (h : Z) :
  0 <= p <= 32 -> in_address_space base_network_int p total ->
  get_subnet_ranges base_network_int p total = Returned l -> In d l ->
  calculate_possible_hosts p = Returned h ->
  (p <= 30 ->
   exists f t, ip_int_of (first_host d) = Returned f /\
               ip_int_of (last_host d) = Returned t /\ t - f + 1 = h /\ 0 < h) /\
  (31 <= p ->
   exists n b, ip_int_of (network d) = Returned n /\
               ip_int_of (broadcast d) = Returned b /\ b - n + 1 = h).
Proof.
  intros Hp Hsp Hl Hin Hh. apply In_nth_error in Hin. destruct Hin as [i Hi].
  destruct (get_subnet_ranges_nth _ _ _ _ _ _ Hl Hi) as (_ & Hir & ->).
  destruct (entry_fields base_network_int p (2 ^ (32 - p)) (Z.of_nat i))
    as (_ & Hn & Hb & _ & Hlo).
  destruct (in_space_entry _ _ _ (proj2 Hp) (Z.of_nat i) Hsp Hir) as (H0 & H1).
  destruct (calculate_possible_hosts_value p) as (V30 & V31 & V32).
  split.
  - intros H30. destruct (Hlo H30) as [-> ->].
    rewrite (V30 H30) in Hh. apply returned_inj in Hh. subst h.
    assert (4 <= 2 ^ (32 - p)) by (change 4 with (2 ^ 2); apply Z.pow_le_mono_r; lia).
    do 2 eexists. split; [apply ip_int_of_dotted; lia|].
    split; [apply ip_int_of_dotted; lia|]. lia.
  - intros H31. rewrite Hn, Hb.
    do 2 eexists. split; [apply ip_int_of_dotted; lia|].
    split; [apply ip_int_of_dotted; lia|].
    assert (Hc : p = 31 \/ p = 32) by lia.
    destruct Hc as [-> | ->].
    + rewrite V31 in Hh. apply returned_inj in Hh. subst h.
      change (2 ^ (32 - 31)) with 2. lia.
    + rewrite V32 in Hh. apply returned_inj in Hh. subst h.
      change (2 ^ (32 - 32)) with 1. lia.
Qed.

Lemma hosts_count_matches_range_witness :
  exists f t, ip_int_of "10.10.10.65" = Returned f /\
              ip_int_of "10.10.10.126" = Returned t /\ t - f + 1 = 62.
Proof.
  assert (H26 : 0 <= 26 <= 32) by lia. assert (H30 : 26 <= 30) by lia.
  assert (Hsp : in_address_space 168430080 26 4) by (split; [lia|vm_compute; discriminate]).
  destruct (hosts_count_matches_range 168430080 26 4 _
              {| subnet_index := 2; network := "10.10.10.64"; broadcast := "10.10.10.127";
                 first_host := "10.10.10.65"; last_host := "10.10.10.126" |} 62
              H26 Hsp eq_refl) as [H _]; [right; left; reflexivity|reflexivity|].
  destruct (H H30) as (f & t & Hf & Ht & E & _). exists f, t. auto.
Defined.

(** ** Runs of the main script *)

(** The [i]-th descriptor of a run: its addresses are the texts of 32-bit
    integers, the network one a multiple of the subnet size. *)
Lemma main_descriptor (input_ipv4_address : string) (original_mask number_of_subnets : Z)
      (res : results) (i : nat) (d : sub_dict) :
  main input_ipv4_address original_mask number_of_subnets = Returned res ->
  nth_error (all_subnets res) i = Some d ->
  let size := 2 ^ (32 - new_mask res) in
  let n := base_network_int res + Z.of_nat i * size in
  0 <= Z.of_nat i < total_subnets res /\ 0 < size /\
  network d = int_to_dotted n /\ broadcast d = int_to_dotted (n + size - 1) /\
  0 <= n /\ n + size - 1 < 2 ^ 32 /\ n mod size = 0.
Proof.
  intros Hmain Hd size n.
  destruct (main_fields _ _ _ _ Hmain)
    as (a & Hra & _ & Hp & _ & Hb0 & _ & Hnm & Hnm32 & Hts & _ & _ & _ & Hbase & _ & _).
  destruct (main_steps _ _ _ _ Hmain) as (_ & _ & _ & _ & _ & _ & _ & Hsub).
  destruct (get_subnet_ranges_nth _ _ _ _ _ _ Hsub Hd) as (_ & Hi & ->).
  destruct (entry_fields (base_network_int res) (new_mask res) size (Z.of_nat i))
    as (_ & Hn & Hb & _).
  assert (Hsp : in_address_space (base_network_int res) (new_mask res) (total_subnets res)).
  { rewrite Hbase, Hnm, Hts. apply plan_in_address_space; lia. }
  destruct (in_space_entry _ _ _ Hnm32 (Z.of_nat i) Hsp Hi) as (H0 & H1).
  assert (Hs : 0 < size) by (apply Z.pow_pos_nonneg; lia).
  repeat split; try assumption; try lia.
  subst n. rewrite Z.mod_add by lia.
  rewrite Hbase, land_mask_of by lia.
  replace (2 ^ (32 - original_mask)) with (2 ^ bits_borrowed res * size).
  - rewrite <- Z.mul_assoc, (Z.mul_comm size), Z.mul_assoc. apply Z.mod_mul. lia.
  - unfold size. rewrite <- Z.pow_add_r by lia. f_equal. lia.
Qed.

(** X12. The main script ends with the error of the planner when the planner
    raises, whatever the address text; with the error of [get_ip_address]
    when the plan succeeds and the address is refused; and with results
    otherwise: the calls it makes outside its [try] blocks never raise.  So
    every run ends with results or with a [ValueError] it catches. *)
Theorem main_outcome (input_ipv4_address : string) (original_mask number_of_subnets : Z) :
  (forall e,
      calculate_new_subnet_mask_for_subnets original_mask number_of_subnets = Raised e ->
      main input_ipv4_address original_mask number_of_subnets = Raised e) /\
  (forall plan e,
      calculate_new_subnet_mask_for_subnets original_mask number_of_subnets
        = Returned plan ->
      get_ip_address input_ipv4_address = Raised e ->
      main input_ipv4_address original_mask number_of_subnets = Raised e) /\
  (forall plan r,
      calculate_new_subnet_mask_for_subnets original_mask number_of_subnets
        = Returned plan ->
      get_ip_address input_ipv4_address = Returned r ->
      exists res, main input_ipv4_address original_mask number_of_subnets = Returned res) /\
  ((exists res, main input_ipv4_address original_mask number_of_subnets = Returned res) \/
   (exists m,
       main input_ipv4_address original_mask number_of_subnets = Raised (ValueError m))).
Proof.
  assert (H1 : forall e,
             calculate_new_subnet_mask_for_subnets original_mask number_of_subnets
               = Raised e ->
             main input_ipv4_address original_mask number_of_subnets = Raised e).
  { intros e H. unfold main. now rewrite H. }
  assert (H2 : forall plan e,
             calculate_new_subnet_mask_for_subnets original_mask number_of_subnets
               = Returned plan ->
             get_ip_address input_ipv4_address = Raised e ->
             main input_ipv4_address original_mask number_of_subnets = Raised e).
  { intros [[nm ts] bb] e H He. unfold main. rewrite H. cbn [bind]. now rewrite He. }
  assert (H3 : forall plan r,
             calculate_new_subnet_mask_for_subnets original_mask number_of_subnets
               = Returned plan ->
             get_ip_address input_ipv4_address = Returned r ->
             exists res,
               main input_ipv4_address original_mask number_of_subnets = Returned res).
  { intros plan r H Hr.
    destruct (calculate_new_subnet_mask_returns _ _ _ H) as (Hp & Hn & Hcap & _).
    destruct (main_run _ _ _ _ Hr Hp Hn Hcap) as (a & res & _ & _ & Hres & _).
    now exists res. }
  split; [exact H1|]. split; [exact H2|]. split; [exact H3|].
  destruct (planner_outcome original_mask number_of_subnets) as [[plan Hplan]|[m Hm]].
  - destruct (get_ip_address_outcome input_ipv4_address) as [[r Hr]|[m Hm]].
    + left. exact (H3 _ _ Hplan Hr).
    + right. exists m. exact (H2 _ _ Hplan Hm).
  - right. exists m. exact (H1 _ Hm).
Qed.

Lemma main_outcome_witness :
  main "10.10.10" 40 4 = Raised (ValueError CIDR_must_be_between_0_and_32) /\
  main "10.10.10" 24 4 = Raised (ValueError Must_have_exactly_four_octets) /\
  exists res, main "10.10.10.10" 24 4 = Returned res.
Proof.
  split; [|split].
  - apply (proj1 (main_outcome "10.10.10" 40 4)). reflexivity.
  - apply (proj1 (proj2 (main_outcome "10.10.10" 24 4)) (26, 4, 2)); reflexivity.
  - apply (proj1 (proj2 (proj2 (main_outcome "10.10.10.10" 24 4))) (26, 4, 2)
             ("10.10.10.10", "00001010.00001010.00001010.00001010")); reflexivity.
Defined.

(** X13. The subnets a run of the main script enumerates tile the block of
    the original prefix: there are [total_subnets] of them and together they
    have the size of the block; the first network address is the base
    network, each next network address is the broadcast address before it
    plus 1, and the last broadcast address is the broadcast address
    [get_broadcast_address] gives for the input address under the original
    mask. *)
Theorem subnets_tile_the_block
        (input_ipv4_address : string) (original_mask number_of_subnets : Z)
        (res : results) :
  main input_ipv4_address original_mask number_of_subnets = Returned res ->
  Z.of_nat (List.length (all_subnets res)) = total_subnets res /\
  total_subnets res * 2 ^ (32 - new_mask res) = 2 ^ (32 - original_mask) /\
  (exists first,
      nth_error (all_subnets res) 0 = Some first /\
      network first = base_network_dotted res) /\
  (forall (i : nat) (d d' : sub_dict),
      nth_error (all_subnets res) i = Some d ->
      nth_error (all_subnets res) (S i) = Some d' ->
      exists b n', ip_int_of (broadcast d) = Returned b /\
                   ip_int_of (network d') = Returned n' /\ n' = b + 1) /\
  (exists last block_binary,
      nth_error (all_subnets res) (Z.to_nat (total_subnets res - 1)) = Some last /\
      get_broadcast_address (binary_format_ip res) (orig_mask_binary res)
        = Returned (block_binary, broadcast last)).
Proof.
  intros Hmain.
  destruct (main_fields _ _ _ _ Hmain)
    as (a & Hra & _ & Hp & _ & Hb0 & _ & Hnm & Hnm32 & Hts & Hip & Hom & _
        & Hbase & Hbd & Hall).
  injection Hip as _ Ebi. injection Hom as _ Eob. injection Hbd as Ebd _.
  assert (Hs : 0 < 2 ^ (32 - new_mask res)) by (apply Z.pow_pos_nonneg; lia).
  assert (Ht : 0 < total_subnets res) by (rewrite Hts; apply Z.pow_pos_nonneg; lia).
  assert (Hfill : total_subnets res * 2 ^ (32 - new_mask res) = 2 ^ (32 - original_mask)).
  { rewrite Hts, <- Z.pow_add_r by lia. f_equal. lia. }
  split; [rewrite Hall, length_map, range_length; lia|].
  split; [exact Hfill|]. split; [|split].
  - eexists. split.
    + rewrite Hall. apply (map_nth_error _ 0%nat). apply (range_nth _ 0). lia.
    + destruct (entry_fields (base_network_int res) (new_mask res)
                  (2 ^ (32 - new_mask res)) 0) as (_ & Hn & _).
      rewrite Hn, Ebd. f_equal. lia.
  - intros i d d' Hd Hd'.
    destruct (main_descriptor _ _ _ _ _ _ Hmain Hd) as (_ & _ & _ & Hb & H0 & H1 & _).
    destruct (main_descriptor _ _ _ _ _ _ Hmain Hd') as (_ & _ & Hn' & _ & H0' & H1' & _).
    rewrite Hb, Hn'. do 2 eexists.
    split; [apply ip_int_of_dotted; lia|]. split; [apply ip_int_of_dotted; lia|].
    rewrite Nat2Z.inj_succ. lia.
  - destruct (binary_form_value a Hra) as [Hia _].
    destruct (binary_form_value _ (mask_of_range _ Hp)) as [Him _].
    destruct (get_broadcast_address_forms _ _ _ _ Hia Him Hra) as [Hg _].
    cbv zeta in Hg. rewrite broadcast_of_prefix in Hg by lia.
    do 2 eexists. split.
    + rewrite Hall. apply map_nth_error, range_nth. lia.
    + destruct (entry_fields (base_network_int res) (new_mask res)
                  (2 ^ (32 - new_mask res)) (total_subnets res - 1)) as (_ & _ & Hb & _).
      rewrite Ebi, Eob, Hg, Hb.
      replace (base_network_int res + (total_subnets res - 1) * 2 ^ (32 - new_mask res)
               + 2 ^ (32 - new_mask res) - 1)
        with (Z.land a (mask_of original_mask) + 2 ^ (32 - original_mask) - 1)
        by (rewrite Hbase; lia).
      reflexivity.
Qed.

Lemma subnets_tile_the_block_witness :
  exists res,
    main "10.10.10.10" 24 4 = Returned res /\
    Z.of_nat (List.length (all_subnets res)) = total_subnets res /\
    total_subnets res * 2 ^ (32 - new_mask res) = 2 ^ (32 - 24).
Proof.
  destruct (main "10.10.10.10" 24 4) as [res| |] eqn:Hmain;
    try (vm_compute in Hmain; discriminate Hmain).
  exists res. destruct (subnets_tile_the_block _ _ _ _ Hmain) as (H1 & H2 & _).
  auto.
Defined.

(** X14. In a run of the main script every descriptor agrees with the
    bitwise functions applied under the new mask: its network and broadcast
    texts are accepted by [get_ip_address] unchanged, [get_network_address]
    maps the network address to itself (it is aligned on the new prefix), and
    [get_broadcast_address] of the network address is the broadcast address
    of the descriptor. *)
Theorem descriptors_agree_with_masks
        (input_ipv4_address : string) (original_mask number_of_subnets : Z)
        (res : results) (d : sub_dict) :
  main input_ipv4_address original_mask number_of_subnets = Returned res ->
  In d (all_subnets res) ->
  exists network_binary broadcast_binary : string,
    get_ip_address (network d) = Returned (network d, network_binary) /\
    get_ip_address (broadcast d) = Returned (broadcast d, broadcast_binary) /\
    get_network_address network_binary (new_mask_binary res)
      = Returned (network d, network_binary) /\
    get_broadcast_address network_binary (new_mask_binary res)
      = Returned (broadcast_binary, broadcast d).
Proof.
  intros Hmain Hin. apply In_nth_error in Hin. destruct Hin as [i Hi].
  destruct (main_descriptor _ _ _ _ _ _ Hmain Hi) as (_ & Hs & Hn & Hb & H0 & H1 & Hal).
  destruct (main_fields _ _ _ _ Hmain)
    as (a & _ & _ & Hp & _ & Hb0 & _ & Hnm & Hnm32 & _ & _ & _ & Hnew & _).
  injection Hnew as _ Enb.
  set (size := 2 ^ (32 - new_mask res)) in *.
  set (n := base_network_int res + Z.of_nat i * size) in *.
  assert (Hnew : 0 <= new_mask res <= 32) by lia.
  assert (Hrn : 0 <= n < 2 ^ 32) by lia.
  assert (Hrb : 0 <= n + size - 1 < 2 ^ 32) by lia.
  destruct (binary_form_value n Hrn) as [Hin _].
  destruct (binary_form_value _ (mask_of_range _ Hnew)) as [Him _].
  assert (Eland : Z.land n (mask_of (new_mask res)) = n).
  { rewrite land_mask_of by lia. fold size.
    pose proof (Z.div_mod n size). lia. }
  exists (binary_form n), (binary_form (n + size - 1)).
  rewrite Hn, Hb, Enb.
  split; [now apply get_ip_address_dotted|].
  split; [now apply get_ip_address_dotted|]. split.
  - rewrite (get_network_address_forms _ _ _ _ Hin Him Hrn), Eland. reflexivity.
  - destruct (get_broadcast_address_forms _ _ _ _ Hin Him Hrn) as [Hg _].
    cbv zeta in Hg. rewrite broadcast_of_prefix, Eland in Hg by lia. exact Hg.
Qed.

Lemma descriptors_agree_with_masks_witness :
  get_broadcast_address "00001010.00001010.00001010.01000000"
                        "11111111.11111111.11111111.11000000"
  = Returned ("00001010.00001010.00001010.01111111", "10.10.10.127").
Proof.
  destruct (main "10.10.10.10" 24 4) as [res| |] eqn:Hmain;
    try (vm_compute in Hmain; discriminate Hmain).
  destruct (descriptors_agree_with_masks _ _ _ res
              {| subnet_index := 2; network := "10.10.10.64"; broadcast := "10.10.10.127";
                 first_host := "10.10.10.65"; last_host := "10.10.10.126" |} Hmain)
    as (nb & bb & Hn & Hb & _ & Hg).
  - vm_compute in Hmain. injection Hmain as <-. right. left. reflexivity.
  - cbn [network broadcast] in *. vm_compute in Hn, Hb.
    injection Hn as <-. injection Hb as <-.
    vm_compute in Hmain. injection Hmain as <-. exact Hg.
Defined.

(** X15. In a run of the main script the input address belongs to exactly
    one of the subnets enumerated: one descriptor has its network address at
    or below the address and its broadcast address at or above it, and no
    descriptor at another index has. *)
Theorem address_in_one_subnet
        (input_ipv4_address : string) (original_mask number_of_subnets : Z)
        (res : results) :
  main input_ipv4_address original_mask number_of_subnets = Returned res ->
  exists (a : Z) (i : nat) (d : sub_dict),
    ip_int_of input_ipv4_address = Returned a /\
    nth_error (all_subnets res) i = Some d /\
    (exists lo hi, ip_int_of (network d) = Returned lo /\
                   ip_int_of (broadcast d) = Returned hi /\ lo <= a <= hi) /\
    (forall (j : nat) (d' : sub_dict) (lo' hi' : Z),
        nth_error (all_subnets res) j = Some d' ->
        ip_int_of (network d') = Returned lo' ->
        ip_int_of (broadcast d') = Returned hi' ->
        lo' <= a <= hi' -> j = i).
Proof.
  intros Hmain.
  destruct (main_fields _ _ _ _ Hmain)
    as (a & Hra & Ha & Hp & _ & Hb0 & _ & Hnm & Hnm32 & Hts & _ & _ & _
        & Hbase & _ & Hall).
  set (size := 2 ^ (32 - new_mask res)) in *.
  set (base := base_network_int res) in *.
  assert (Hs : 0 < size) by (apply Z.pow_pos_nonneg; lia).
  assert (HK : 0 < 2 ^ (32 - original_mask)) by (apply Z.pow_pos_nonneg; lia).
  assert (Hfill : total_subnets res * size = 2 ^ (32 - original_mask)).
  { unfold size. rewrite Hts, <- Z.pow_add_r by lia. f_equal. lia. }
  assert (Hoff : 0 <= a - base < 2 ^ (32 - original_mask)).
  { rewrite Hbase, land_mask_of by lia.
    pose proof (Z.div_mod a (2 ^ (32 - original_mask))).
    pose proof (Z.mod_pos_bound a (2 ^ (32 - original_mask)) HK). lia. }
  set (q := (a - base) / size).
  assert (Hq : 0 <= q < total_subnets res).
  { split; [apply Z.div_pos; lia|].
    apply Z.div_lt_upper_bound; [lia|]. rewrite Z.mul_comm. lia. }
  assert (Hqa : base + q * size <= a < base + q * size + size).
  { pose proof (Z.div_mod (a - base) size). fold q in H.
    pose proof (Z.mod_pos_bound (a - base) size Hs). lia. }
  assert (Hread : forall (j : nat) (d' : sub_dict),
             nth_error (all_subnets res) j = Some d' ->
             0 <= Z.of_nat j < total_subnets res /\
             ip_int_of (network d') = Returned (base + Z.of_nat j * size) /\
             ip_int_of (broadcast d') = Returned (base + Z.of_nat j * size + size - 1)).
  { intros j d' Hd'.
    destruct (main_descriptor _ _ _ _ _ _ Hmain Hd') as (Hj & _ & Hn & Hb & H0 & H1 & _).
    fold size base in Hn, Hb, H0, H1. rewrite Hn, Hb.
    repeat split; try lia; apply ip_int_of_dotted; lia. }
  assert (Hd : nth_error (all_subnets res) (Z.to_nat q)
               = Some (subnet_entry base (new_mask res) size q)).
  { rewrite Hall. apply map_nth_error, range_nth, Hq. }
  destruct (Hread _ _ Hd) as (_ & Hn & Hb). rewrite Z2Nat.id in Hn, Hb by lia.
  exists a, (Z.to_nat q). eexists. split; [exact Ha|]. split; [exact Hd|]. split.
  - do 2 eexists. split; [exact Hn|]. split; [exact Hb|]. lia.
  - intros j d' lo' hi' Hd' Hlo Hhi Hin.
    destruct (Hread _ _ Hd') as (Hj & Hn' & Hb').
    rewrite Hn' in Hlo. rewrite Hb' in Hhi.
    apply returned_inj in Hlo, Hhi. subst lo' hi'.
    assert (Z.of_nat j = q) by nia. lia.
Qed.

Lemma address_in_one_subnet_witness :
  exists (a : Z) (i : nat) (d : sub_dict),
    ip_int_of "10.10.10.200" = Returned a /\
    (exists lo hi, ip_int_of (network d) = Returned lo /\
                   ip_int_of (broadcast d) = Returned hi /\ lo <= a <= hi).
Proof.
  destruct (main "10.10.10.200" 24 4) as [res| |] eqn:Hmain;
    try (vm_compute in Hmain; discriminate Hmain).
  destruct (address_in_one_subnet _ _ _ _ Hmain) as (a & i & d & Ha & _ & Hin & _).
  exists a, i, d. auto.
Defined.

(** ** More on the enumeration, the hosts and the planner *)

(** X16. For a prefix up to 32 [get_subnet_ranges] returns for every count,
    without any check on it: no descriptor for a count of 0 or less, and
    otherwise [total_subnets] descriptors numbered 1, 2, ... in the order of
    the list. *)
Theorem enumeration_shape (base_network_int new_mask total_subnets : Z) :
  new_mask <= 32 ->
  exists l,
    get_subnet_ranges base_network_int new_mask total_subnets = Returned l /\
    List.length l = Z.to_nat total_subnets /\
    (total_subnets <= 0 -> l = []) /\
    (forall (i : nat) (d : sub_dict),
        nth_error l i = Some d ->
        subnet_index d = Z.of_nat i + 1 /\ 1 <= subnet_index d <= total_subnets).
Proof.
  intros Hm. pose proof (get_subnet_ranges_returns base_network_int _ total_subnets Hm) as Hl.
  eexists. split; [exact Hl|]. split; [now rewrite length_map, range_length|]. split.
  - intros H0. unfold Py.range. now replace (Z.to_nat total_subnets) with 0%nat by lia.
  - intros i d Hd. destruct (get_subnet_ranges_nth _ _ _ _ _ _ Hl Hd) as (_ & Hi & ->).
    unfold subnet_entry. destruct (new_mask >=? 31); cbn [subnet_index]; lia.
Qed.

Lemma enumeration_shape_witness :
  exists l, get_subnet_ranges 3232235776 30 (-2) = Returned l /\ l = [].
Proof.
  destruct (enumeration_shape 3232235776 30 (-2)) as (l & Hl & _ & He & _); [lia|].
  exists l. split; [exact Hl|]. apply He. lia.
Defined.

(** X17. [calculate_possible_hosts] makes no check on the prefix: it returns
    for every prefix up to 32, negative ones included, a count of at least
    1, and a longer prefix never gets a larger count (30 and 31 both get
    2). *)
Theorem hosts_decrease (p q : Z) :
  p <= q -> q <= 32 ->
  exists hp hq,
    calculate_possible_hosts p = Returned hp /\
    calculate_possible_hosts q = Returned hq /\
    1 <= hq <= hp.
Proof.
  intros Hpq Hq.
  assert (Hv : forall x, x <= 32 ->
               exists h, calculate_possible_hosts x = Returned h /\
                         (x <= 30 -> h = 2 ^ (32 - x) - 2) /\
                         (x = 31 -> h = 2) /\ (x = 32 -> h = 1)).
  { intros x Hx. destruct (calculate_possible_hosts_value x) as (V30 & V31 & V32).
    assert (Hc : x <= 30 \/ x = 31 \/ x = 32) by lia.
    destruct Hc as [H|[-> | ->]]; eexists; (split; [eauto|]); repeat split; lia. }
  destruct (Hv p ltac:(lia)) as (hp & Hp & P30 & P31 & P32).
  destruct (Hv q Hq) as (hq & Hhq & Q30 & Q31 & Q32).
  exists hp, hq. split; [exact Hp|]. split; [exact Hhq|].
  assert (Hpow : forall x, x <= 30 -> 4 <= 2 ^ (32 - x)).
  { intros x Hx. change 4 with (2 ^ 2). apply Z.pow_le_mono_r; lia. }
  assert (Hc : q <= 30 \/ q = 31 \/ q = 32) by lia.
  destruct Hc as [H|[H|H]].
  - rewrite (Q30 H), (P30 ltac:(lia)). pose proof (Hpow q H).
    assert (2 ^ (32 - q) <= 2 ^ (32 - p)) by (apply Z.pow_le_mono_r; lia). lia.
  - rewrite (Q31 H).
    assert (Hc : p <= 30 \/ p = 31) by lia. destruct Hc as [Hp'|Hp'].
    + rewrite (P30 Hp'). pose proof (Hpow p Hp'). lia.
    + rewrite (P31 Hp'). lia.
  - rewrite (Q32 H).
    assert (Hc : p <= 30 \/ p = 31 \/ p = 32) by lia. destruct Hc as [Hp'|[Hp'|Hp']].
    + rewrite (P30 Hp'). pose proof (Hpow p Hp'). lia.
    + rewrite (P31 Hp'). lia.
    + rewrite (P32 Hp'). lia.
Qed.

Lemma hosts_decrease_witness :
  exists hp hq,
    calculate_possible_hosts (-1) = Returned hp /\
    calculate_possible_hosts 31 = Returned hq /\ 1 <= hq <= hp.
Proof. apply (hosts_decrease (-1) 31); lia. Defined.

(** X18. A plan is stable: asking again, from the same original prefix, for
    exactly the number of subnets a plan provides gives the same plan. *)
Theorem plan_is_stable (base_mask desired_subnets new_mask total_subnets bits : Z) :
  calculate_new_subnet_mask_for_subnets base_mask desired_subnets
    = Returned (new_mask, total_subnets, bits) ->
  calculate_new_subnet_mask_for_subnets base_mask total_subnets
    = Returned (new_mask, total_subnets, bits).
Proof.
  intros H.
  destruct (calculate_new_subnet_mask_returns _ _ _ H) as (Hp & Hn & Hcap & [= -> -> ->]).
  pose proof (Z.log2_up_nonneg desired_subnets) as Hb.
  assert (1 <= 2 ^ Z.log2_up desired_subnets)
    by (pose proof (Z.pow_pos_nonneg 2 (Z.log2_up desired_subnets)); lia).
  rewrite calculate_new_subnet_mask_run by lia.
  rewrite Z.log2_up_pow2 by lia.
  destruct (_ >? 32) eqn:E; [gtb_prop E; lia|reflexivity].
Qed.

Lemma plan_is_stable_witness :
  calculate_new_subnet_mask_for_subnets 24 8 = Returned (27, 8, 3).
Proof. apply (plan_is_stable 24 5 27 8 3). reflexivity. Defined.

(** ** Whitespace and characters of an address text *)

Lemma lstrip_spaces (s : string) : Py.all Py.is_space s = true -> Py.lstrip s = "".
Proof.
  induction s as [|c s IH]; simpl; [reflexivity|].
  intros [Hc Hs]%andb_prop. rewrite Hc. auto.
Qed.

Lemma rstrip_spaces (s : string) : Py.all Py.is_space s = true -> Py.rstrip s = "".
Proof.
  induction s as [|c s IH]; simpl; [reflexivity|].
  intros [Hc Hs]%andb_prop. now rewrite (IH Hs), Hc.
Qed.

Lemma lstrip_app (s t : string) :
  Py.lstrip (s ++ t) = if Py.all Py.is_space s then Py.lstrip t else Py.lstrip s ++ t.
Proof.
  induction s as [|c s IH]; simpl; [reflexivity|].
  destruct (Py.is_space c); simpl; [exact IH|reflexivity].
Qed.

Lemma rstrip_pad (s pad : string) :
  Py.all Py.is_space pad = true -> Py.rstrip (s ++ pad) = Py.rstrip s.
Proof.
  intros Hp. induction s as [|c s IH]; simpl; [now apply rstrip_spaces|].
  now rewrite IH.
Qed.

Lemma strip_pad (pad s pad' : string) :
  Py.all Py.is_space pad = true -> Py.all Py.is_space pad' = true ->
  Py.strip (pad ++ s ++ pad') = Py.strip s.
Proof.
  intros Hp Hp'. unfold Py.strip. rewrite lstrip_app, Hp, lstrip_app.
  destruct (Py.all Py.is_space s) eqn:Hs.
  - now rewrite (lstrip_spaces _ Hp'), (lstrip_spaces _ Hs).
  - now apply rstrip_pad.
Qed.

(** X19. [get_ip_address] ignores whitespace around the text: adding any
    whitespace characters before and after a text changes nothing to what it
    returns or raises. *)
Theorem surrounding_whitespace_ignored (pad s pad' : string) :
  Py.all Py.is_space pad = true -> Py.all Py.is_space pad' = true ->
  get_ip_address (pad ++ s ++ pad') = get_ip_address s.
Proof.
  intros Hp Hp'. unfold get_ip_address. now rewrite strip_pad.
Qed.

Lemma surrounding_whitespace_ignored_witness :
  get_ip_address "  10.10.10.10 " = get_ip_address "10.10.10.10".
Proof.
  apply (surrounding_whitespace_ignored "  " "10.10.10.10" " "); reflexivity.
Defined.


